(** * gemini-qa-app: the WeChat webhook and the prompt form

    A shallow embedding of the two TypeScript sources of the repository:
    the serverless webhook (GET verification handshake, POST message
    round trip) and the React prompt form ([src/index.tsx]).

    Strings are JavaScript strings, that is sequences of UTF-16 code
    units; the handlers run in a small state-and-exception monad whose
    state holds the response object being filled in and the trace of the
    calls made to the outside world. *)

From Stdlib Require Import NArith ZArith Lia.
From stdpp Require Import base option list sorting strings gmap.

#[local] Set Warnings "-register-all".
Local Open Scope N_scope.

(** ** JavaScript strings *)

(** A JavaScript string: its UTF-16 code units. *)
Abbreviation jsstring := (list N).

(** A source literal made of ASCII characters. *)
Fixpoint js (s : string) : jsstring :=
  match s with
  | EmptyString => []
  | String c r => Ascii.N_of_ascii c :: js r
  end.

#[global] Arguments js : simpl never.

(** [a < b] on strings: code unit by code unit, a proper prefix first. *)
Fixpoint str_compare (a b : jsstring) : comparison :=
  match a, b with
  | [], [] => Eq
  | [], _ :: _ => Lt
  | _ :: _, [] => Gt
  | x :: a', y :: b' =>
      match N.compare x y with
      | Eq => str_compare a' b'
      | c => c
      end
  end.

Definition str_ltb (a b : jsstring) : bool :=
  match str_compare a b with Lt => true | _ => false end.

Definition str_le (a b : jsstring) : Prop := str_compare a b <> Gt.

(** [a === b] on strings. *)
Definition str_eqb (a b : jsstring) : bool := bool_decide (a = b).

(** [Array.prototype.join] on an array of strings. *)
Fixpoint join (sep : jsstring) (l : list jsstring) : jsstring :=
  match l with
  | [] => []
  | [x] => x
  | x :: r => x ++ sep ++ join sep r
  end.

(** The code units [String.prototype.trim] strips: white space and line
    terminators. *)
Definition is_ws (c : N) : bool :=
  (c =? 0x09) || (c =? 0x0A) || (c =? 0x0B) || (c =? 0x0C) || (c =? 0x0D)
  || (c =? 0x20) || (c =? 0xA0) || (c =? 0x1680)
  || ((0x2000 <=? c) && (c <=? 0x200A))
  || (c =? 0x2028) || (c =? 0x2029) || (c =? 0x202F) || (c =? 0x205F)
  || (c =? 0x3000) || (c =? 0xFEFF).

Fixpoint trimStart (s : jsstring) : jsstring :=
  match s with
  | c :: r => if is_ws c then trimStart r else s
  | [] => []
  end.

Definition trimEnd (s : jsstring) : jsstring := rev (trimStart (rev s)).

Definition trim (s : jsstring) : jsstring := trimEnd (trimStart s).

(** ** UTF-8 and SHA-1, as [crypto.createHash('sha1').update(s).digest('hex')] *)

Module Sha1.

(** The bytes [update] hashes for a string: its UTF-8 encoding, a lone
    surrogate becoming U+FFFD. *)
Definition utf8_2 (c : N) : list N :=
  [N.lor 0xC0 (N.shiftr c 6); N.lor 0x80 (N.land c 0x3F)].

Definition utf8_3 (c : N) : list N :=
  [N.lor 0xE0 (N.shiftr c 12);
   N.lor 0x80 (N.land (N.shiftr c 6) 0x3F);
   N.lor 0x80 (N.land c 0x3F)].

Definition utf8_4 (c : N) : list N :=
  [N.lor 0xF0 (N.shiftr c 18);
   N.lor 0x80 (N.land (N.shiftr c 12) 0x3F);
   N.lor 0x80 (N.land (N.shiftr c 6) 0x3F);
   N.lor 0x80 (N.land c 0x3F)].

Definition is_high (c : N) : bool := (0xD800 <=? c) && (c <? 0xDC00).
Definition is_low (c : N) : bool := (0xDC00 <=? c) && (c <? 0xE000).

Fixpoint utf8 (s : jsstring) : list N :=
  match s with
  | [] => []
  | c :: r =>
      if c <? 0x80 then c :: utf8 r
      else if c <? 0x800 then utf8_2 c ++ utf8 r
      else if is_high c then
        match r with
        | d :: r' =>
            if is_low d
            then utf8_4 (0x10000 + N.shiftl (c - 0xD800) 10 + (d - 0xDC00))
                   ++ utf8 r'
            else utf8_3 0xFFFD ++ utf8 r
        | [] => utf8_3 0xFFFD
        end
      else if is_low c then utf8_3 0xFFFD ++ utf8 r
      else utf8_3 c ++ utf8 r
  end.

Definition mask32 : N := 0xFFFFFFFF.

Definition add32 (a b : N) : N := N.land (a + b) mask32.

Definition rotl (n x : N) : N :=
  N.land (N.lor (N.shiftl x n) (N.shiftr x (32 - n))) mask32.

(** Big-endian bytes of a word, most significant first. *)
Fixpoint be_bytes (n : nat) (x : N) : list N :=
  match n with
  | O => []
  | S n' => N.land (N.shiftr x (8 * N.of_nat n')) 0xFF :: be_bytes n' x
  end.

(** Message padding: a 1 bit, zeros up to 56 mod 64, the bit length. *)
Definition pad (msg : list N) : list N :=
  let len := length msg in
  let zeros := ((64 - (len + 9) mod 64) mod 64)%nat in
  msg ++ [0x80] ++ repeat 0 zeros ++ be_bytes 8 (8 * N.of_nat len).

Fixpoint words (fuel : nat) (bs : list N) : list N :=
  match fuel, bs with
  | S fuel', b0 :: b1 :: b2 :: b3 :: r =>
      (N.shiftl b0 24 + N.shiftl b1 16 + N.shiftl b2 8 + b3) :: words fuel' r
  | _, _ => []
  end.

Definition f (t : nat) (b c d : N) : N :=
  if (t <? 20)%nat then N.lor (N.land b c) (N.land (N.lxor b mask32) d)
  else if (t <? 40)%nat then N.lxor (N.lxor b c) d
  else if (t <? 60)%nat then
    N.lor (N.lor (N.land b c) (N.land b d)) (N.land c d)
  else N.lxor (N.lxor b c) d.

Definition K (t : nat) : N :=
  if (t <? 20)%nat then 0x5A827999
  else if (t <? 40)%nat then 0x6ED9EBA1
  else if (t <? 60)%nat then 0x8F1BBCDC
  else 0xCA62C1D6.

Record regs := Regs { ra : N; rb : N; rc : N; rd : N; re : N }.

Definition H0 : regs :=
  Regs 0x67452301 0xEFCDAB89 0x98BADCFE 0x10325476 0xC3D2E1F0.

(** One round; [w] is the sliding window W[t..t+15] of the schedule. *)
Definition round (t : nat) (st : regs * list N) : regs * list N :=
  let '(Regs a b c d e, w) := st in
  let wt := nth 0 w 0 in
  let next :=
    rotl 1 (N.lxor (N.lxor (N.lxor (nth 13 w 0) (nth 8 w 0)) (nth 2 w 0)) wt) in
  let temp := add32 (add32 (add32 (add32 (rotl 5 a) (f t b c d)) e) (K t)) wt in
  (Regs temp a (rotl 30 b) c d, tail w ++ [next]).

Definition block (h : regs) (w : list N) : regs :=
  let '(Regs a b c d e, _) :=
    fold_left (fun st t => round t st) (seq 0 80) (h, w) in
  Regs (add32 (ra h) a) (add32 (rb h) b) (add32 (rc h) c)
       (add32 (rd h) d) (add32 (re h) e).

Fixpoint blocks (fuel : nat) (h : regs) (ws : list N) : regs :=
  match fuel, ws with
  | S fuel', _ :: _ => blocks fuel' (block h (take 16 ws)) (drop 16 ws)
  | _, _ => h
  end.

Definition digest (msg : list N) : regs :=
  let ws := words (length (pad msg)) (pad msg) in
  blocks (length ws) H0 ws.

(** Lower-case hexadecimal digits. *)
Definition hex_digit (n : N) : N := if n <? 10 then 48 + n else 87 + n.

Fixpoint hex_word (n : nat) (x : N) : jsstring :=
  match n with
  | O => []
  | S n' => hex_digit (N.land (N.shiftr x (4 * N.of_nat n')) 0xF) :: hex_word n' x
  end.

Definition hex (h : regs) : jsstring :=
  hex_word 8 (ra h) ++ hex_word 8 (rb h) ++ hex_word 8 (rc h)
    ++ hex_word 8 (rd h) ++ hex_word 8 (re h).

Definition sha1_hex (s : jsstring) : jsstring := hex (digest (utf8 s)).

#[global] Arguments sha1_hex : simpl never.

End Sha1.

(** ** Exceptions, effects and the outside world *)

(** What a [throw] carries: an [Error] with its message, or any other
    value. *)
Inductive thrown :=
  | ErrorObj (message : jsstring)
  | NonError.

Inductive outcome (A : Type) :=
  | Ret (a : A)
  | Throw (e : thrown).
Arguments Ret {A} a.
Arguments Throw {A} e.

(** A computation over a state [St] that returns or throws. *)
Definition M (St A : Type) : Type := St -> outcome A * St.

#[global] Instance M_ret {St} : MRet (M St) := fun A a st => (Ret a, st).

#[global] Instance M_bind {St} : MBind (M St) := fun A B k m st =>
  match m st with
  | (Ret a, st') => k a st'
  | (Throw e, st') => (Throw e, st')
  end.

Definition throw {St A} (e : thrown) : M St A := fun st => (Throw e, st).

(** [try { m } catch (e) { h e }] *)
Definition try_catch {St A} (m : M St A) (h : thrown -> M St A) : M St A :=
  fun st =>
    match m st with
    | (Ret a, st') => (Ret a, st')
    | (Throw e, st') => h e st'
    end.

(** [try { m } finally { fin }] *)
Definition try_finally {St A} (m : M St A) (fin : M St unit) : M St A :=
  fun st =>
    match m st with
    | (r, st') =>
        match fin st' with
        | (Ret _, st'') => (r, st'')
        | (Throw e, st'') => (Throw e, st'')
        end
    end.

Definition lift {St A} (o : outcome A) : M St A := fun st => (o, st).

(** The values [parseStringPromise] resolves with, typed [any] in the
    source. *)
Inductive value :=
  | VUndefined
  | VNull
  | VString (s : jsstring)
  | VArray (l : list value)
  | VObject (props : list (string * value)).

Fixpoint assoc (k : string) (props : list (string * value)) : value :=
  match props with
  | [] => VUndefined
  | (k', v) :: r => if String.eqb k k' then v else assoc k r
  end.

Definition typeError : thrown :=
  ErrorObj (js "Cannot read properties of undefined").

(** [v.k] for the member names the handlers read, none of which is a
    built-in member of a string or an array. *)
Definition get_prop {St} (v : value) (k : string) : M St value :=
  match v with
  | VUndefined | VNull => throw typeError
  | VObject props => mret (assoc k props)
  | VString _ | VArray _ => mret VUndefined
  end.

(** [v[0]] *)
Definition get_index0 {St} (v : value) : M St value :=
  match v with
  | VUndefined | VNull => throw typeError
  | VArray l => mret (nth 0 l VUndefined)
  | VString s => mret (match s with c :: _ => VString [c] | [] => VUndefined end)
  | VObject props => mret (assoc "0" props)
  end.

(** The object [sendReply] hands to the XML builder, under its [xml] key. *)
Record payload := {
  ToUserName : value;
  FromUserName : value;
  CreateTime : Z;
  MsgType : jsstring;
  Content : jsstring }.

(** Calls that leave the handler. *)
Inductive event :=
  | EvDigest (input : jsstring)
  | EvParse (xmlData : jsstring)
  | EvGenerate (model : jsstring) (contents : value)
  | EvBuild (p : payload)
  | EvPreventDefault
  | EvConsoleLog (fromUser userPrompt : value)
  | EvConsoleError (label : jsstring) (e : thrown).

(** The collaborators of the webhook: the configured token, the
    generative-text API (resolving with [result.text], which may be
    undefined, or throwing), the xml2js parser and builder, the clock. *)
Record Env := {
  WECHAT_TOKEN : jsstring;
  generateContent : jsstring -> value -> outcome (option jsstring);
  parseStringPromise : jsstring -> outcome value;
  buildObject : payload -> outcome jsstring;
  Date_now : Z }.

(** A query parameter: [string | string[]], or undefined when absent. *)
Inductive qval :=
  | QUndefined
  | QStr (s : jsstring)
  | QArr (l : list jsstring).

(** The request body stream: its chunks, each as [chunk.toString()] gives
    it, then ['end'] or ['error']. *)
Record stream := {
  chunks : list jsstring;
  failure : option thrown }.

Record Req := {
  method : string;
  query : gmap string qval;
  bodyStream : stream }.

(** What [send] was given. *)
Inductive body :=
  | BText (s : jsstring)
  | BJson (l : list jsstring).

Record Res := {
  statusCode : Z;
  headers : gmap string jsstring;
  sent : option body }.

Record HState := {
  res : Res;
  trace : list event }.

Definition emit (e : event) : M HState unit := fun st =>
  (Ret tt, {| res := res st; trace := trace st ++ [e] |}).

Definition res_status (c : Z) : M HState unit := fun st =>
  (Ret tt,
   {| res := {| statusCode := c; headers := headers (res st);
                sent := sent (res st) |};
      trace := trace st |}).

Definition res_setHeader (k : string) (v : jsstring) : M HState unit := fun st =>
  (Ret tt,
   {| res := {| statusCode := statusCode (res st);
                headers := <[k := v]> (headers (res st));
                sent := sent (res st) |};
      trace := trace st |}).

Definition res_send (b : body) : M HState unit := fun st =>
  (Ret tt,
   {| res := {| statusCode := statusCode (res st);
                headers := headers (res st);
                sent := Some b |};
      trace := trace st |}).

(** [res.send(v)] for a query value: a string as it is, an array as JSON. *)
Definition send_qval (v : qval) : M HState unit :=
  match v with
  | QStr s => res_send (BText s)
  | QArr l => res_send (BJson l)
  | QUndefined => res_send (BText [])
  end.

(** ** The webhook *)

Module Webhook.

(** The module's start-up check on its two environment variables. *)
Definition loadModule (GEMINI_API_KEY WECHAT_TOKEN : option jsstring)
  : outcome (jsstring * jsstring) :=
  match GEMINI_API_KEY, WECHAT_TOKEN with
  | Some (k :: ks), Some (t :: ts) => Ret (k :: ks, t :: ts)
  | _, _ =>
      Throw (ErrorObj (js
        "Missing required environment variables: GEMINI_API_KEY and WECHAT_TOKEN"))
  end.

(** [!v] is false exactly on these. *)
Definition truthy (v : qval) : bool :=
  match v with
  | QUndefined => false
  | QStr [] => false
  | QStr (_ :: _) => true
  | QArr _ => true
  end.

(** [String(v)] *)
Definition toString (v : qval) : jsstring :=
  match v with
  | QUndefined => js "undefined"
  | QStr s => s
  | QArr l => join (js ",") l
  end.

(** The default comparison of [Array.prototype.sort]: undefined last,
    everything else by its string. *)
Definition sortCompare_ltb (x y : qval) : bool :=
  match x, y with
  | QUndefined, _ => false
  | _, QUndefined => true
  | _, _ => str_ltb (toString x) (toString y)
  end.

Fixpoint sort_insert (x : qval) (l : list qval) : list qval :=
  match l with
  | [] => [x]
  | y :: r => if sortCompare_ltb y x then y :: sort_insert x r else x :: y :: r
  end.

(** [l.sort()]: a stable sort by [sortCompare_ltb]. *)
Fixpoint Array_sort (l : list qval) : list qval :=
  match l with
  | [] => []
  | x :: r => sort_insert x (Array_sort r)
  end.

(** [l.join(sep)]: undefined elements give the empty string. *)
Definition Array_join (sep : jsstring) (l : list qval) : jsstring :=
  join sep (map (fun v => match v with QUndefined => [] | _ => toString v end) l).

(** [sha1 === signature], the left side being a string. *)
Definition strict_eq (s : jsstring) (v : qval) : bool :=
  match v with
  | QStr s' => str_eqb s s'
  | _ => false
  end.

Definition createHash_sha1_hex (input : jsstring) : M HState jsstring :=
  emit (EvDigest input);; mret (Sha1.sha1_hex input).

Definition param (req : Req) (k : string) : qval :=
  default QUndefined (query req !! k).

Definition handleVerification (env : Env) (req : Req) : M HState unit :=
  let signature := param req "signature" in
  let timestamp := param req "timestamp" in
  let nonce := param req "nonce" in
  let echostr := param req "echostr" in
  if negb (truthy signature) || negb (truthy timestamp)
     || negb (truthy nonce) || negb (truthy echostr)
  then
    res_status 400;; res_send (BText (js "Missing verification parameters."))
  else
    let token := WECHAT_TOKEN env in
    let list := Array_sort [QStr token; timestamp; nonce] in
    sha1 ← createHash_sha1_hex (Array_join [] list);
    if strict_eq sha1 signature
    then res_status 200;; send_qval echostr
    else res_status 403;; res_send (BText (js "Verification failed.")).

Definition getRawBody (req : Req) : M HState jsstring :=
  let body := fold_left (fun body chunk => body ++ chunk) (chunks (bodyStream req)) [] in
  match failure (bodyStream req) with
  | None => mret body
  | Some err => throw err
  end.

Definition model_name : jsstring := js "gemini-2.5-flash".

Definition getGeminiResponse (env : Env) (prompt : value) : M HState jsstring :=
  try_catch
    (emit (EvGenerate model_name prompt);;
     result_text ← lift (generateContent env model_name prompt);
     mret (default (js "I'm not sure how to respond to that.") result_text))
    (fun err =>
       emit (EvConsoleError (js "Gemini API Error:") err);;
       mret (js "Sorry, I'm having trouble thinking right now. Please try again later.")).

Definition sendReply (env : Env) (originalMessage : value) (content : jsstring)
  : M HState unit :=
  toArr ← get_prop originalMessage "ToUserName";
  to ← get_index0 toArr;
  fromArr ← get_prop originalMessage "FromUserName";
  from ← get_index0 fromArr;
  let responsePayload :=
    {| ToUserName := to;
       FromUserName := from;
       CreateTime := (Date_now env / 1000)%Z;
       MsgType := js "text";
       Content := content |} in
  emit (EvBuild responsePayload);;
  xmlResponse ← lift (buildObject env responsePayload);
  res_setHeader "Content-Type" (js "application/xml");;
  res_status 200;;
  res_send (BText xmlResponse).

Definition apology : jsstring :=
  js "Sorry, I can only understand text messages for now.".

(** [msgType !== 'text'] *)
Definition is_text (v : value) : bool :=
  match v with
  | VString s => str_eqb s (js "text")
  | _ => false
  end.

Definition handleMessage (env : Env) (req : Req) : M HState unit :=
  try_catch
    (xmlData ← getRawBody req;
     emit (EvParse xmlData);;
     parsedXml ← lift (parseStringPromise env xmlData);
     message ← get_prop parsedXml "xml";
     msgTypeArr ← get_prop message "MsgType";
     msgType ← get_index0 msgTypeArr;
     if negb (is_text msgType) then
       sendReply env message apology
     else
       contentArr ← get_prop message "Content";
       userPrompt ← get_index0 contentArr;
       fromArr ← get_prop message "FromUserName";
       fromUser ← get_index0 fromArr;
       toArr ← get_prop message "ToUserName";
       toUser ← get_index0 toArr;
       emit (EvConsoleLog fromUser userPrompt);;
       geminiResponse ← getGeminiResponse env userPrompt;
       sendReply env
         (VObject [("FromUserName"%string, VArray [toUser]);
                   ("ToUserName"%string, VArray [fromUser])])
         geminiResponse)
    (fun error =>
       emit (EvConsoleError (js "Error handling message:") error);;
       res_status 200;;
       res_send (BText [])).

Definition handler (env : Env) (req : Req) : M HState unit :=
  if String.eqb (method req) "GET" then handleVerification env req
  else if String.eqb (method req) "POST" then handleMessage env req
  else res_status 405;; res_send (BText (js "Method Not Allowed")).

(** The response object a handler starts from, and a whole invocation. *)
Definition res0 : Res := {| statusCode := 200; headers := ∅; sent := None |}.

Definition init : HState := {| res := res0; trace := [] |}.

Definition run (env : Env) (req : Req) : outcome unit * HState :=
  handler env req init.

Definition response (env : Env) (req : Req) : Res := res (snd (run env req)).

Definition calls (env : Env) (req : Req) : list event := trace (snd (run env req)).

End Webhook.

(** ** The prompt form *)

Module Form.

(** The four [useState] cells of [App]. *)
Record AppState := {
  prompt : jsstring;
  response : jsstring;
  loading : bool;
  error : jsstring }.

Record FState := {
  app : AppState;
  calls : list event }.

Definition emit (e : event) : M FState unit := fun st =>
  (Ret tt, {| app := app st; calls := calls st ++ [e] |}).

Definition setResponse (v : jsstring) : M FState unit := fun st =>
  (Ret tt,
   {| app := {| prompt := prompt (app st); response := v;
                loading := loading (app st); error := error (app st) |};
      calls := calls st |}).

Definition setLoading (v : bool) : M FState unit := fun st =>
  (Ret tt,
   {| app := {| prompt := prompt (app st); response := response (app st);
                loading := v; error := error (app st) |};
      calls := calls st |}).

Definition setError (v : jsstring) : M FState unit := fun st =>
  (Ret tt,
   {| app := {| prompt := prompt (app st); response := response (app st);
                loading := loading (app st); error := v |};
      calls := calls st |}).

Definition model_name : jsstring := js "gemini-2.5-flash".

(** [!s] on a string. *)
Definition falsy (s : jsstring) : bool :=
  match s with [] => true | _ :: _ => false end.

Definition handleSubmit
    (generateContent : jsstring -> value -> outcome (option jsstring))
  : M FState unit :=
  fun st0 =>
    let prompt := prompt (app st0) in
    (emit EvPreventDefault;;
     if falsy (trim prompt) then mret tt
     else
       setLoading true;;
       setResponse [];;
       setError [];;
       try_finally
         (try_catch
            (emit (EvGenerate model_name (VString prompt));;
             result_text ← lift (generateContent model_name (VString prompt));
             setResponse (default [] result_text))
            (fun err =>
               emit (EvConsoleError [] err);;
               setError (match err with
                         | ErrorObj message => message
                         | NonError => js "An unknown error occurred."
                         end)))
         (setLoading false)) st0.

(** What [App] renders below the header from its state. *)
Record View := {
  inputDisabled : bool;
  buttonDisabled : bool;
  errorBox : option jsstring;
  responseBox : option jsstring }.

Definition render (st : AppState) : View :=
  {| inputDisabled := loading st;
     buttonDisabled := loading st;
     errorBox := if falsy (error st) then None else Some (error st);
     responseBox :=
       if negb (falsy (response st)) && falsy (error st)
       then Some (response st) else None |}.

(** A submit event on a given state: the final state and the calls made. *)
Definition submit
    (generateContent : jsstring -> value -> outcome (option jsstring))
    (st : AppState) : outcome unit * FState :=
  handleSubmit generateContent {| app := st; calls := [] |}.

End Form.

(** ** Test doubles and fixtures *)

Module Fixture.

Definition token : jsstring := js "wechat-token".
Definition timestamp : jsstring := js "1700000000".
Definition nonce : jsstring := js "n0nce42".
Definition echostr : jsstring := js "5927782489442352424".
Definition signature : jsstring := js "d615839f1e776de58f044337d04df5fbb1a7653e".

Definition get (params : list (string * qval)) : Req :=
  {| method := "GET"; query := list_to_map params;
     bodyStream := {| chunks := []; failure := None |} |}.

Definition handshake : Req :=
  get [("signature"%string, QStr signature); ("timestamp"%string, QStr timestamp);
       ("nonce"%string, QStr nonce); ("echostr"%string, QStr echostr)].

(** The inbound documents, as text and as xml2js delivers them. *)
Definition text_xml : list jsstring :=
  [js "<xml><ToUserName><![CDATA[gh_account]]></ToUserName>";
   js "<FromUserName><![CDATA[user_openid]]></FromUserName>";
   js "<CreateTime>1700000000</CreateTime><MsgType><![CDATA[text]]></MsgType>";
   js "<Content><![CDATA[hello]]></Content><MsgId>1234567890</MsgId></xml>"].

Definition text_message : value :=
  VObject [("ToUserName"%string, VArray [VString (js "gh_account")]);
           ("FromUserName"%string, VArray [VString (js "user_openid")]);
           ("CreateTime"%string, VArray [VString (js "1700000000")]);
           ("MsgType"%string, VArray [VString (js "text")]);
           ("Content"%string, VArray [VString (js "hello")]);
           ("MsgId"%string, VArray [VString (js "1234567890")])].

Definition image_xml : list jsstring :=
  [js "<xml><ToUserName><![CDATA[gh_account]]></ToUserName>";
   js "<FromUserName><![CDATA[user_openid]]></FromUserName>";
   js "<CreateTime>1700000000</CreateTime><MsgType><![CDATA[image]]></MsgType>";
   js "<PicUrl><![CDATA[http://example.com/a.jpg]]></PicUrl></xml>"].

Definition image_message : value :=
  VObject [("ToUserName"%string, VArray [VString (js "gh_account")]);
           ("FromUserName"%string, VArray [VString (js "user_openid")]);
           ("CreateTime"%string, VArray [VString (js "1700000000")]);
           ("MsgType"%string, VArray [VString (js "image")]);
           ("PicUrl"%string, VArray [VString (js "http://example.com/a.jpg")])].

Definition post (body : list jsstring) : Req :=
  {| method := "POST"; query := ∅;
     bodyStream := {| chunks := body; failure := None |} |}.

(** A parser that knows the two documents above and rejects the rest. *)
Definition parser (xmlData : jsstring) : outcome value :=
  if str_eqb xmlData (concat text_xml)
  then Ret (VObject [("xml"%string, text_message)])
  else if str_eqb xmlData (concat image_xml)
  then Ret (VObject [("xml"%string, image_message)])
  else Throw (ErrorObj (js "Non-whitespace before first tag.")).

Fixpoint decimal (fuel : nat) (n : N) (acc : jsstring) : jsstring :=
  match fuel with
  | O => acc
  | S fuel' =>
      let acc' := (48 + n mod 10) :: acc in
      if n <? 10 then acc' else decimal fuel' (n / 10) acc'
  end.

Definition text_of (v : value) : jsstring :=
  match v with VString s => s | _ => [] end.

(** A builder that writes the five elements in order, never failing. *)
Definition builder (p : payload) : outcome jsstring :=
  Ret (js "<xml><ToUserName>" ++ text_of (ToUserName p)
       ++ js "</ToUserName><FromUserName>" ++ text_of (FromUserName p)
       ++ js "</FromUserName><CreateTime>"
       ++ decimal 20 (Z.to_N (CreateTime p)) []
       ++ js "</CreateTime><MsgType>" ++ MsgType p
       ++ js "</MsgType><Content><![CDATA[" ++ Content p
       ++ js "]]></Content></xml>").

Definition env (api : jsstring -> value -> outcome (option jsstring)) : Env :=
  {| WECHAT_TOKEN := token;
     generateContent := api;
     parseStringPromise := parser;
     buildObject := builder;
     Date_now := 1700000000123 |}.

Definition api_answers (_ : jsstring) (_ : value) : outcome (option jsstring) :=
  Ret (Some (js "Hi there!")).

Definition api_down (_ : jsstring) (_ : value) : outcome (option jsstring) :=
  Throw (ErrorObj (js "503 Service Unavailable")).

(** States of the form before a submit. *)
Definition asking : Form.AppState :=
  {| Form.prompt := js "Why is the sky blue?";
     Form.response := js "An earlier answer.";
     Form.loading := false;
     Form.error := [] |}.

Definition asking_after_error : Form.AppState :=
  {| Form.prompt := js "Why is the sky blue?";
     Form.response := [];
     Form.loading := false;
     Form.error := js "An earlier failure." |}.

Definition idle : Form.AppState :=
  {| Form.prompt := [0x20; 0x0A; 0x09; 0x3000];
     Form.response := js "An earlier answer.";
     Form.loading := false;
     Form.error := [] |}.

(** A request with another method, a body stream that breaks off, an API
    that answers without text, and collaborators whose parser returns a
    given outcome. *)
Definition put : Req :=
  {| method := "PUT"; query := ∅;
     bodyStream := {| chunks := []; failure := None |} |}.

Definition broken (body : list jsstring) : Req :=
  {| method := "POST"; query := ∅;
     bodyStream := {| chunks := body;
                      failure := Some (ErrorObj (js "aborted")) |} |}.


Definition env_parsing (parsed : outcome value)
    (api : jsstring -> value -> outcome (option jsstring)) : Env :=
  {| WECHAT_TOKEN := token;
     generateContent := api;
     parseStringPromise := fun _ => parsed;
     buildObject := builder;
     Date_now := 1700000000123 |}.

(** A text message that lost its [Content] element. *)
Definition text_without_content : value :=
  VObject [("ToUserName"%string, VArray [VString (js "gh_account")]);
           ("FromUserName"%string, VArray [VString (js "user_openid")]);
           ("MsgType"%string, VArray [VString (js "text")])].

(** The fixture signature written in upper case, and the handshake with
    the values of timestamp and nonce exchanged. *)
Definition signature_upper : jsstring :=
  js "D615839F1E776DE58F044337D04DF5FBB1A7653E".

Definition handshake_upper : Req :=
  get [("signature"%string, QStr signature_upper); ("timestamp"%string, QStr timestamp);
       ("nonce"%string, QStr nonce); ("echostr"%string, QStr echostr)].

Definition handshake_swapped : Req :=
  get [("signature"%string, QStr signature); ("timestamp"%string, QStr nonce);
       ("nonce"%string, QStr timestamp); ("echostr"%string, QStr echostr)].

Definition handshake_repeated : Req :=
  get [("signature"%string, QArr [signature; signature]);
       ("timestamp"%string, QStr timestamp);
       ("nonce"%string, QStr nonce); ("echostr"%string, QStr echostr)].

(** The handshake as a POST-shaped request with a stray parameter. *)
Definition handshake_noisy : Req :=
  {| method := "GET";
     query := <["openid"%string := QStr (js "user_openid")]> (query handshake);
     bodyStream := {| chunks := [js "ignored"]; failure := None |} |}.

(** A builder that, as xml2js does for plain text, refuses a text holding
    a character XML 1.0 forbids, and an API whose answer holds one. *)
Definition xml_illegal (c : N) : bool :=
  ((c <? 0x20) && negb ((c =? 0x09) || (c =? 0x0A) || (c =? 0x0D)))
  || (c =? 0xFFFE) || (c =? 0xFFFF).

Definition strict_builder (p : payload) : outcome jsstring :=
  if existsb xml_illegal
       (text_of (ToUserName p) ++ text_of (FromUserName p) ++ Content p)
  then Throw (ErrorObj (js "Invalid character in string"))
  else builder p.

Definition env_strict (api : jsstring -> value -> outcome (option jsstring)) : Env :=
  {| WECHAT_TOKEN := token;
     generateContent := api;
     parseStringPromise := parser;
     buildObject := strict_builder;
     Date_now := 1700000000123 |}.

Definition api_backspace (_ : jsstring) (_ : value) : outcome (option jsstring) :=
  Ret (Some [72; 8; 105]).

End Fixture.

(** ** Vocabulary of the statements *)

(** The four query parameters of the handshake. *)
Definition verification_params : list string :=
  ["signature"; "timestamp"; "nonce"; "echostr"]%string.

(** The request with parameter [k] removed from its query. *)
Definition without (k : string) (req : Req) : Req :=
  {| method := method req; query := delete k (query req);
     bodyStream := bodyStream req |}.

(** [x] may stand before [y] in a sorted array. *)
Definition sorted_before (x y : qval) : Prop := Webhook.sortCompare_ltb y x = false.

(** [message.k[0]], and [parsedXml.xml], as plain outcomes. *)
Definition read (message : value) (k : string) : outcome value :=
  fst ((arr ← get_prop message k; get_index0 arr) tt).

Definition root (parsedXml : value) : outcome value :=
  fst (get_prop parsedXml "xml" tt).

(** The body [getRawBody] resolves with when the stream ends. *)
Definition raw_body (req : Req) : jsstring :=
  fold_left (fun body chunk => body ++ chunk) (chunks (bodyStream req)) [].

(** The request body is read and parsed, and its root element is
    [message]. *)
Definition delivers (env : Env) (req : Req) (message : value) : Prop :=
  failure (bodyStream req) = None
  /\ exists parsedXml,
       parseStringPromise env (raw_body req) = Ret parsedXml
       /\ root parsedXml = Ret message.

(** The response is the XML envelope built from [p]: status 200, content
    type application/xml, the builder's text as the body. *)
Definition replies_with (env : Env) (r : Res) (p : payload) : Prop :=
  exists xml,
    buildObject env p = Ret xml
    /\ statusCode r = 200%Z
    /\ headers r !! "Content-Type"%string = Some (js "application/xml")
    /\ sent r = Some (BText xml).


(** The state [sendReply] leaves when the builder returns [xml] for [p]. *)
Definition replied (st : HState) (p : payload) (xml : jsstring) : HState :=
  {| res := {| statusCode := 200;
               headers := <["Content-Type"%string := js "application/xml"]>
                            (headers (res st));
               sent := Some (BText xml) |};
     trace := trace st ++ [EvBuild p] |}.

Definition logged (st : HState) (e : event) : HState :=
  {| res := res st; trace := trace st ++ [e] |}.

Definition fallback : jsstring :=
  js "Sorry, I'm having trouble thinking right now. Please try again later.".

Definition no_text : jsstring := js "I'm not sure how to respond to that.".

(** Runs the monadic plumbing of a handler, leaving the calls to the
    outside world and the string operations as they are. *)
Ltac mred :=
  cbv beta iota zeta delta
    [mbind M_bind mret M_ret throw try_catch try_finally lift
     emit res_status res_setHeader res_send send_qval
     get_prop get_index0
     Webhook.createHash_sha1_hex Webhook.truthy Webhook.strict_eq
     Webhook.init Webhook.res0 str_eqb negb orb andb
     res trace statusCode headers sent fst snd].

(** A prompt that is empty or made of white space only. *)
Definition blank (s : jsstring) : Prop := Forall (fun c => is_ws c = true) s.

(** The characters of a lower-case hexadecimal numeral. *)
Definition lower_hex (c : N) : Prop := 48 <= c <= 57 \/ 97 <= c <= 102.

(** Runs the plumbing of the form's submit handler. *)
Ltac fred :=
  cbv beta iota zeta delta
    [mbind M_bind mret M_ret throw try_catch try_finally lift
     Form.emit Form.setLoading Form.setResponse Form.setError
     Form.app Form.calls Form.prompt Form.response Form.loading Form.error
     Form.render Form.errorBox Form.responseBox negb andb fst snd].

(** Counting the calls of one kind in a trace. *)
Fixpoint count_events (f : event -> bool) (l : list event) : nat :=
  match l with
  | [] => O
  | e :: r => if f e then S (count_events f r) else count_events f r
  end.

Definition is_generate (e : event) : bool :=
  match e with EvGenerate _ _ => true | _ => false end.

Definition is_parse (e : event) : bool :=
  match e with EvParse _ => true | _ => false end.

Definition is_build (e : event) : bool :=
  match e with EvBuild _ => true | _ => false end.

Definition is_digest (e : event) : bool :=
  match e with EvDigest _ => true | _ => false end.

(** The answer of the [catch] block of [handleMessage] on a fresh
    response, and the label it logs under. *)
Definition empty_reply : Res :=
  {| statusCode := 200; headers := ∅; sent := Some (BText []) |}.

Definition error_label : jsstring := js "Error handling message:".

(** The state the [catch] block of [handleMessage] leaves. *)
Definition caught (st : HState) (e : thrown) : HState :=
  {| res := {| statusCode := 200; headers := headers (res st);
               sent := Some (BText []) |};
     trace := trace st ++ [EvConsoleError error_label e] |}.

(** * Properties *)

(** ** SHA-1 *)

(** The standard test vectors. *)
Example sha1_abc :
  Sha1.sha1_hex (js "abc") = js "a9993e364706816aba3e25717850c26c9cd0d89d".
Proof. vm_compute. reflexivity. Qed.

Example sha1_empty :
  Sha1.sha1_hex [] = js "da39a3ee5e6b4b0d3255bfef95601890afd80709".
Proof. vm_compute. reflexivity. Qed.

Example sha1_two_blocks :
  Sha1.sha1_hex (js "abcdbcdecdefdefgefghfghighijhijkijkljklmklmnlmnomnopnopq")
  = js "84983e441c3bd26ebaae4aa1f95129e5e54670f1".
Proof. vm_compute. reflexivity. Qed.

Example sha1_utf8 :
  Sha1.sha1_hex [0x68; 0xE9; 0x6C; 0x6C; 0x6F; 0x20; 0x20AC; 0xD83D; 0xDE00]
  = js "64fc72f9c244b8bcc8b67669077e4e13bbf0d2b1".
Proof. vm_compute. reflexivity. Qed.

Example sha1_fixture :
  Sha1.sha1_hex (Fixture.timestamp ++ Fixture.nonce ++ Fixture.token)
  = Fixture.signature.
Proof. vm_compute. reflexivity. Qed.

Lemma hex_digit_lower (n : N) : n < 16 -> lower_hex (Sha1.hex_digit n).
Proof.
  intros Hn. unfold lower_hex, Sha1.hex_digit.
  destruct (N.ltb_spec n 10); lia.
Qed.

Lemma hex_word_shape (n : nat) (x : N) :
  length (Sha1.hex_word n x) = n /\ Forall lower_hex (Sha1.hex_word n x).
Proof.
  induction n as [|n [IHl IHf]]; simpl; [by split|].
  split; [by rewrite IHl|]. constructor; [|done].
  apply hex_digit_lower.
  change 15 with (N.ones 4). rewrite N.land_ones.
  apply N.mod_lt. discriminate.
Qed.

(** The digest is written as forty lower-case hexadecimal digits. *)
Lemma sha1_hex_shape (s : jsstring) :
  length (Sha1.sha1_hex s) = 40%nat /\ Forall lower_hex (Sha1.sha1_hex s).
Proof.
  unfold Sha1.sha1_hex, Sha1.hex.
  destruct (Sha1.digest (Sha1.utf8 s)) as [a b c d e].
  cbn [Sha1.ra Sha1.rb Sha1.rc Sha1.rd Sha1.re].
  split.
  - rewrite !length_app, !(proj1 (hex_word_shape _ _)). reflexivity.
  - rewrite !Forall_app. repeat split; apply hex_word_shape.
Qed.

(** ** The order on strings *)

Lemma str_compare_refl (a : jsstring) : str_compare a a = Eq.
Proof.
  induction a as [|x a IH]; simpl; [done|].
  by rewrite N.compare_refl.
Qed.

Lemma str_compare_eq (a b : jsstring) : str_compare a b = Eq -> a = b.
Proof.
  revert b; induction a as [|x a IH]; intros [|y b]; simpl; try done.
  destruct (N.compare_spec x y) as [->| |]; try done.
  intros H. by rewrite (IH _ H).
Qed.

Lemma str_compare_antisym (a b : jsstring) :
  str_compare b a = CompOpp (str_compare a b).
Proof.
  revert b; induction a as [|x a IH]; intros [|y b]; simpl; try done.
  rewrite (N.compare_antisym x y).
  destruct (N.compare x y); simpl; auto.
Qed.

Lemma str_compare_trans (a b c : jsstring) :
  str_compare a b = Lt -> str_compare b c = Lt -> str_compare a c = Lt.
Proof.
  revert b c; induction a as [|x a IH]; intros [|y b] [|z c]; simpl; try done.
  destruct (N.compare_spec x y) as [->|Hxy|Hxy]; try done.
  - destruct (N.compare_spec y z) as [->|Hyz|Hyz]; try done. apply IH.
  - intros _. destruct (N.compare_spec y z) as [->|Hyz|Hyz]; try done.
    + intros _. destruct (N.compare_spec x z); [lia|done|lia].
    + intros _. destruct (N.compare_spec x z); [lia|done|lia].
Qed.

#[global] Instance str_le_refl : Reflexive str_le.
Proof. intros a. unfold str_le. by rewrite str_compare_refl. Qed.

#[global] Instance str_le_trans : Transitive str_le.
Proof.
  intros a b c Hab Hbc. unfold str_le in *.
  destruct (str_compare a b) eqn:E1; [|clear Hab|done].
  - by rewrite (str_compare_eq _ _ E1).
  - destruct (str_compare b c) eqn:E2; [|clear Hbc|done].
    + rewrite <- (str_compare_eq _ _ E2). by rewrite E1.
    + by rewrite (str_compare_trans _ _ _ E1 E2).
Qed.

#[global] Instance str_le_antisym : AntiSymm eq str_le.
Proof.
  intros a b Hab Hba. unfold str_le in *.
  rewrite (str_compare_antisym a b) in Hba.
  destruct (str_compare a b) eqn:E; simpl in *; try done.
  by apply str_compare_eq.
Qed.

#[global] Instance str_le_total : Total str_le.
Proof.
  intros a b. unfold str_le. rewrite (str_compare_antisym a b).
  destruct (str_compare a b); simpl; auto.
Qed.

(** ** [Array.prototype.sort] *)

Lemma sortCompare_asym (x y : qval) :
  Webhook.sortCompare_ltb x y = true -> Webhook.sortCompare_ltb y x = false.
Proof.
  unfold Webhook.sortCompare_ltb, str_ltb.
  destruct x, y; try done;
    rewrite (str_compare_antisym (Webhook.toString _) (Webhook.toString _));
    by destruct (str_compare _ _).
Qed.

Lemma sort_insert_perm (x : qval) (l : list qval) :
  Webhook.sort_insert x l ≡ₚ x :: l.
Proof.
  induction l as [|y l IH]; simpl; [done|].
  destruct (Webhook.sortCompare_ltb y x); [|done].
  rewrite IH. apply Permutation_swap.
Qed.

Lemma Array_sort_perm (l : list qval) : Webhook.Array_sort l ≡ₚ l.
Proof.
  induction l as [|x l IH]; simpl; [done|].
  by rewrite sort_insert_perm, IH.
Qed.

Lemma sort_insert_sorted (x : qval) (l : list qval) :
  Sorted sorted_before l -> Sorted sorted_before (Webhook.sort_insert x l).
Proof.
  induction 1 as [|y l Hl IH Hy]; simpl.
  - repeat constructor.
  - destruct (Webhook.sortCompare_ltb y x) eqn:E.
    + constructor; [done|].
      destruct Hy as [|z l Hyz]; simpl.
      * constructor. by apply sortCompare_asym.
      * destruct (Webhook.sortCompare_ltb z x); constructor;
          [done | by apply sortCompare_asym].
    + constructor; [by constructor | by constructor].
Qed.

Lemma Array_sort_sorted (l : list qval) : Sorted sorted_before (Webhook.Array_sort l).
Proof.
  induction l as [|x l IH]; simpl; [constructor|].
  by apply sort_insert_sorted.
Qed.

Lemma sorted_before_strings (l : list jsstring) :
  Sorted sorted_before (map QStr l) -> Sorted str_le l.
Proof.
  induction l as [|x l IH]; simpl; [constructor|].
  inversion 1 as [|? ? Hl Hx]; subst. constructor; [by apply IH|].
  destruct l as [|y l]; simpl in *; constructor.
  inversion Hx as [|? ? Hxy]; subst.
  unfold sorted_before, Webhook.sortCompare_ltb, str_ltb in Hxy; simpl in Hxy.
  unfold str_le. rewrite (str_compare_antisym y x).
  by destruct (str_compare y x).
Qed.

Lemma Array_join_strings (l : list jsstring) :
  Webhook.Array_join [] (map QStr l) = concat l.
Proof.
  unfold Webhook.Array_join. rewrite map_map. simpl. rewrite map_id.
  induction l as [|x [|y l] IH]; simpl in *; [done| by rewrite app_nil_r |].
  by rewrite IH.
Qed.

(** Sorting an array of strings gives the sorted arrangement of the same
    strings, which is unique. *)
Lemma Array_sort_strings (l : list jsstring) :
  exists l', Webhook.Array_sort (map QStr l) = map QStr l'
             /\ l' ≡ₚ l /\ Sorted str_le l'.
Proof.
  pose proof (Array_sort_perm (map QStr l)) as Hp.
  apply Permutation_map_inv in Hp as (l' & Heq & Hperm).
  exists l'. split; [done|]. split; [done|].
  apply sorted_before_strings. rewrite <- Heq. apply Array_sort_sorted.
Qed.

(** ** The verification handshake *)

(** A module that loaded has both settings, neither of them empty. *)
Lemma loadModule_loaded (key tok : option jsstring) (k t : jsstring) :
  Webhook.loadModule key tok = Ret (k, t) ->
  key = Some k /\ tok = Some t /\ k <> [] /\ t <> [].
Proof.
  unfold Webhook.loadModule.
  destruct key as [[|k0 ks]|], tok as [[|t0 ts]|]; try discriminate.
  intros [= <- <-]. repeat split; discriminate.
Qed.

Lemma param_present (req : Req) (k : string) (v : qval) :
  query req !! k = Some v -> Webhook.param req k = v.
Proof. unfold Webhook.param. by intros ->. Qed.

Lemma param_absent (req : Req) (k : string) :
  query req !! k = None -> Webhook.param req k = QUndefined.
Proof. unfold Webhook.param. by intros ->. Qed.

(** C1. With the four parameters present and non-empty, the handler
    answers 200 with [echostr] as the body exactly when [signature] is the
    lower-case hexadecimal SHA-1 digest of the concatenation of the
    token, the timestamp and the nonce in lexicographic order; in every
    other case it answers 403. *)
Theorem verification_checks_signature
    (env : Env) (req : Req) (signature timestamp nonce echostr : jsstring)
    (sorted : list jsstring) :
  query req !! "signature"%string = Some (QStr signature) ->
  query req !! "timestamp"%string = Some (QStr timestamp) ->
  query req !! "nonce"%string = Some (QStr nonce) ->
  query req !! "echostr"%string = Some (QStr echostr) ->
  signature <> [] -> timestamp <> [] -> nonce <> [] -> echostr <> [] ->
  sorted ≡ₚ [WECHAT_TOKEN env; timestamp; nonce] ->
  Sorted str_le sorted ->
  let r := res (snd (Webhook.handleVerification env req Webhook.init)) in
  let expected := Sha1.sha1_hex (concat sorted) in
  ((statusCode r = 200%Z /\ sent r = Some (BText echostr))
     <-> signature = expected)
  /\ (signature <> expected -> statusCode r = 403%Z).
Proof.
  intros Hsig Hts Hnonce Hecho Nsig Nts Nnonce Necho Hperm Hsorted.
  destruct (Array_sort_strings [WECHAT_TOKEN env; timestamp; nonce])
    as (sorted' & Hsort & Hperm' & Hsorted').
  assert (sorted' = sorted) as ->.
  { apply (Sorted_unique str_le); [done | done |]. by rewrite Hperm, Hperm'. }
  unfold Webhook.handleVerification.
  rewrite (param_present _ _ _ Hsig), (param_present _ _ _ Hts),
    (param_present _ _ _ Hnonce), (param_present _ _ _ Hecho). cbv zeta.
  destruct signature as [|s0 sig]; [done|].
  destruct timestamp as [|t0 ts]; [done|].
  destruct nonce as [|n0 no]; [done|].
  destruct echostr as [|e0 ec]; [done|].
  change [QStr (WECHAT_TOKEN env); QStr (t0 :: ts); QStr (n0 :: no)]
    with (map QStr [WECHAT_TOKEN env; t0 :: ts; n0 :: no]).
  rewrite Hsort, Array_join_strings.
  mred. case_bool_decide as Heq; mred.
  - split.
    + split; [intros _; symmetry; exact Heq | intros _; split; reflexivity].
    + intros Hne. exfalso. apply Hne. symmetry. exact Heq.
  - split.
    + split; [intros [H _]; discriminate H|].
      intros Hx. exfalso. apply Heq. symmetry. exact Hx.
    + intros _. reflexivity.
Qed.

Lemma verification_checks_signature_witness :
  let sorted := [Fixture.timestamp; Fixture.nonce; Fixture.token] in
  (query Fixture.handshake !! "signature"%string = Some (QStr Fixture.signature)
   /\ query Fixture.handshake !! "timestamp"%string = Some (QStr Fixture.timestamp)
   /\ query Fixture.handshake !! "nonce"%string = Some (QStr Fixture.nonce)
   /\ query Fixture.handshake !! "echostr"%string = Some (QStr Fixture.echostr)
   /\ Fixture.signature <> [] /\ Fixture.timestamp <> []
   /\ Fixture.nonce <> [] /\ Fixture.echostr <> []
   /\ sorted ≡ₚ [Fixture.token; Fixture.timestamp; Fixture.nonce]
   /\ Sorted str_le sorted)
  /\ let r := res (snd (Webhook.handleVerification
                          (Fixture.env Fixture.api_answers)
                          Fixture.handshake Webhook.init)) in
     let expected := Sha1.sha1_hex (concat sorted) in
     ((statusCode r = 200%Z /\ sent r = Some (BText Fixture.echostr))
        <-> Fixture.signature = expected)
     /\ (Fixture.signature <> expected -> statusCode r = 403%Z).
Proof.
  intros sorted.
  assert (Hperm : sorted ≡ₚ [Fixture.token; Fixture.timestamp; Fixture.nonce]).
  { exact (Permutation_app_comm [Fixture.timestamp; Fixture.nonce]
             [Fixture.token]). }
  assert (Hsorted : Sorted str_le sorted).
  { unfold sorted. repeat constructor; vm_compute; discriminate. }
  split.
  - repeat split;
      solve [assumption | vm_compute; reflexivity | vm_compute; discriminate].
  - apply (verification_checks_signature (Fixture.env Fixture.api_answers)
             Fixture.handshake Fixture.signature Fixture.timestamp
             Fixture.nonce Fixture.echostr sorted);
      solve [assumption | vm_compute; reflexivity | vm_compute; discriminate].
Defined.

(** On the fixture the handshake succeeds and echoes [echostr]. *)
Example handshake_accepted :
  Webhook.run (Fixture.env Fixture.api_answers) Fixture.handshake
  = (Ret tt,
     {| res := {| statusCode := 200; headers := ∅;
                  sent := Some (BText Fixture.echostr) |};
        trace := [EvDigest (Fixture.timestamp ++ Fixture.nonce ++ Fixture.token)] |}).
Proof. vm_compute. reflexivity. Qed.

(** A wrong signature, and a repeated [signature] parameter, which
    arrives as an array and equals no string: 403. *)
Example handshake_rejected :
  statusCode (Webhook.response (Fixture.env Fixture.api_answers)
                (Fixture.get [("signature"%string, QStr (js "0123456789abcdef"));
                              ("timestamp"%string, QStr Fixture.timestamp);
                              ("nonce"%string, QStr Fixture.nonce);
                              ("echostr"%string, QStr Fixture.echostr)]))
  = 403%Z
  /\ statusCode (Webhook.response (Fixture.env Fixture.api_answers)
                   (Fixture.get [("signature"%string,
                                  QArr [Fixture.signature; Fixture.signature]);
                                 ("timestamp"%string, QStr Fixture.timestamp);
                                 ("nonce"%string, QStr Fixture.nonce);
                                 ("echostr"%string, QStr Fixture.echostr)]))
     = 403%Z.
Proof. split; vm_compute; reflexivity. Qed.

(** A falsy parameter stops the handler at its first step. *)
Lemma verification_falsy (env : Env) (req : Req) (k : string) (st : HState) :
  k ∈ verification_params ->
  Webhook.truthy (Webhook.param req k) = false ->
  Webhook.handleVerification env req st
  = (Ret tt,
     {| res := {| statusCode := 400; headers := headers (res st);
                  sent := Some (BText (js "Missing verification parameters.")) |};
        trace := trace st |}).
Proof.
  intros Hk Hf. unfold Webhook.handleVerification. cbv zeta.
  assert (negb (Webhook.truthy (Webhook.param req "signature"))
          || negb (Webhook.truthy (Webhook.param req "timestamp"))
          || negb (Webhook.truthy (Webhook.param req "nonce"))
          || negb (Webhook.truthy (Webhook.param req "echostr")) = true) as ->.
  { unfold verification_params in Hk.
    rewrite !elem_of_cons, elem_of_nil in Hk.
    destruct Hk as [->|[->|[->|[->|[]]]]]; rewrite Hf;
      repeat match goal with
             | |- context [Webhook.truthy ?v] => destruct (Webhook.truthy v)
             end; reflexivity. }
  reflexivity.
Qed.

(** C6. When one of the four parameters is missing the handler answers
    400, hence neither 403 nor 200. *)
Theorem verification_missing_parameter (env : Env) (req : Req) (k : string) :
  k ∈ verification_params ->
  query req !! k = None ->
  let r := res (snd (Webhook.handleVerification env req Webhook.init)) in
  statusCode r = 400%Z /\ statusCode r <> 403%Z /\ statusCode r <> 200%Z
  /\ sent r = Some (BText (js "Missing verification parameters.")).
Proof.
  intros Hk Hnone.
  rewrite (verification_falsy env req k Webhook.init Hk).
  - cbn [snd res statusCode sent]. repeat split; discriminate.
  - by rewrite (param_absent _ _ Hnone).
Qed.

Lemma verification_missing_parameter_witness :
  let req := Fixture.get [("signature"%string, QStr Fixture.signature);
                          ("timestamp"%string, QStr Fixture.timestamp);
                          ("echostr"%string, QStr Fixture.echostr)] in
  ("nonce"%string ∈ verification_params /\ query req !! "nonce"%string = None)
  /\ let r := res (snd (Webhook.handleVerification
                          (Fixture.env Fixture.api_answers) req Webhook.init)) in
     statusCode r = 400%Z /\ statusCode r <> 403%Z /\ statusCode r <> 200%Z
     /\ sent r = Some (BText (js "Missing verification parameters.")).
Proof.
  intros req.
  assert (Hk : "nonce"%string ∈ verification_params)
    by (unfold verification_params; rewrite !elem_of_cons; auto).
  assert (Hq : query req !! "nonce"%string = None) by (vm_compute; reflexivity).
  split; [split; assumption|].
  exact (verification_missing_parameter (Fixture.env Fixture.api_answers)
           req "nonce" Hk Hq).
Defined.

(** C10. A parameter that is present but empty is treated as an absent
    one: the answer is 400, the same as for the request without it, and
    no digest is computed. *)
Theorem verification_empty_parameter (env : Env) (req : Req) (k : string) :
  k ∈ verification_params ->
  query req !! k = Some (QStr []) ->
  let out := Webhook.handleVerification env req Webhook.init in
  out = Webhook.handleVerification env (without k req) Webhook.init
  /\ statusCode (res (snd out)) = 400%Z
  /\ forall input, EvDigest input ∉ trace (snd out).
Proof.
  intros Hk Hempty.
  rewrite (verification_falsy env req k Webhook.init Hk)
    by (by rewrite (param_present _ _ _ Hempty)).
  rewrite (verification_falsy env (without k req) k Webhook.init Hk).
  - cbn [snd res statusCode trace Webhook.init].
    split; [reflexivity|]. split; [reflexivity|].
    intros input Hin. by apply elem_of_nil in Hin.
  - rewrite param_absent; [done|]. apply lookup_delete_eq.
Qed.

Lemma verification_empty_parameter_witness :
  let req := Fixture.get [("signature"%string, QStr Fixture.signature);
                          ("timestamp"%string, QStr []);
                          ("nonce"%string, QStr Fixture.nonce);
                          ("echostr"%string, QStr Fixture.echostr)] in
  ("timestamp"%string ∈ verification_params
   /\ query req !! "timestamp"%string = Some (QStr []))
  /\ let out := Webhook.handleVerification
                  (Fixture.env Fixture.api_answers) req Webhook.init in
     out = Webhook.handleVerification (Fixture.env Fixture.api_answers)
             (without "timestamp" req) Webhook.init
     /\ statusCode (res (snd out)) = 400%Z
     /\ forall input, EvDigest input ∉ trace (snd out).
Proof.
  intros req.
  assert (Hk : "timestamp"%string ∈ verification_params)
    by (unfold verification_params; rewrite !elem_of_cons; auto).
  assert (Hq : query req !! "timestamp"%string = Some (QStr []))
    by (vm_compute; reflexivity).
  split; [split; assumption|].
  exact (verification_empty_parameter (Fixture.env Fixture.api_answers)
           req "timestamp" Hk Hq).
Defined.

(** ** The message handler, step by step *)

Lemma bind_emit {A} (e : event) (k : unit -> M HState A) (st : HState) :
  (emit e ≫= k) st = k tt (logged st e).
Proof. reflexivity. Qed.

Lemma bind_lift {St A B} (o : outcome A) (k : A -> M St B) (st : St) :
  (lift o ≫= k) st
  = match o with Ret a => k a st | Throw e => (Throw e, st) end.
Proof. by destruct o. Qed.

Lemma bind_getRawBody {A} (req : Req) (k : jsstring -> M HState A) (st : HState) :
  (Webhook.getRawBody req ≫= k) st
  = match failure (bodyStream req) with
    | None => k (raw_body req) st
    | Some err => (Throw err, st)
    end.
Proof.
  unfold Webhook.getRawBody, raw_body, mbind, M_bind.
  by destruct (failure (bodyStream req)).
Qed.

Lemma bind_root {St A} (v : value) (k : value -> M St A) (st : St) :
  (get_prop v "xml" ≫= k) st
  = match root v with Ret m => k m st | Throw e => (Throw e, st) end.
Proof. by destruct v. Qed.

Lemma bind_read {St A} (m : value) (key : string) (k : value -> M St A) (st : St) :
  (get_prop m key ≫= fun arr => get_index0 arr ≫= k) st
  = match read m key with Ret v => k v st | Throw e => (Throw e, st) end.
Proof.
  unfold read. destruct m as [| | s | l | props]; try reflexivity.
  unfold get_prop, mbind, M_bind, mret, M_ret. cbv beta iota.
  by destruct (assoc key props).
Qed.

Lemma bind_getGeminiResponse {A} (env : Env) (prompt : value)
    (k : jsstring -> M HState A) (st : HState) :
  (Webhook.getGeminiResponse env prompt ≫= k) st
  = let st1 := logged st (EvGenerate Webhook.model_name prompt) in
    match generateContent env Webhook.model_name prompt with
    | Ret text => k (default no_text text) st1
    | Throw err =>
        k fallback (logged st1 (EvConsoleError (js "Gemini API Error:") err))
    end.
Proof.
  unfold Webhook.getGeminiResponse, try_catch, mbind, M_bind, emit, lift, logged.
  cbv beta iota zeta.
  by destruct (generateContent env Webhook.model_name prompt).
Qed.

Lemma sendReply_eq (env : Env) (om : value) (content : jsstring) (st : HState) :
  Webhook.sendReply env om content st
  = match read om "ToUserName" with
    | Throw e => (Throw e, st)
    | Ret to =>
        match read om "FromUserName" with
        | Throw e => (Throw e, st)
        | Ret from =>
            let p := {| ToUserName := to; FromUserName := from;
                        CreateTime := (Date_now env / 1000)%Z;
                        MsgType := js "text"; Content := content |} in
            match buildObject env p with
            | Ret xml => (Ret tt, replied st p xml)
            | Throw e => (Throw e, logged st (EvBuild p))
            end
        end
    end.
Proof.
  unfold Webhook.sendReply. rewrite bind_read.
  destruct (read om "ToUserName") as [to|e]; [|done].
  rewrite bind_read.
  destruct (read om "FromUserName") as [from|e]; [|done].
  cbv zeta. rewrite bind_emit, bind_lift.
  by destruct (buildObject env _).
Qed.

Lemma is_text_text : Webhook.is_text (VString (js "text")) = true.
Proof. reflexivity. Qed.


(** The path of every other message type. *)
Lemma handleMessage_other (env : Env) (req : Req)
    (message msgType fromUser toUser : value) (st : HState) (xml : jsstring) :
  delivers env req message ->
  read message "MsgType" = Ret msgType ->
  Webhook.is_text msgType = false ->
  read message "FromUserName" = Ret fromUser ->
  read message "ToUserName" = Ret toUser ->
  let p := {| ToUserName := toUser; FromUserName := fromUser;
              CreateTime := (Date_now env / 1000)%Z;
              MsgType := js "text"; Content := Webhook.apology |} in
  buildObject env p = Ret xml ->
  Webhook.handleMessage env req st
  = (Ret tt, replied (logged st (EvParse (raw_body req))) p xml).
Proof.
  intros (Hread & parsedXml & Hparse & Hroot) Htype Hnot Hfrom Hto p Hbuild.
  unfold Webhook.handleMessage, try_catch.
  rewrite bind_getRawBody, Hread, bind_emit, bind_lift, Hparse.
  rewrite bind_root, Hroot, bind_read, Htype, Hnot.
  cbn [negb]. rewrite sendReply_eq, Hto, Hfrom. cbv zeta. fold p.
  by rewrite Hbuild.
Qed.

(** Both paths when the builder's outcome [o] is left open. *)
Lemma handleMessage_text_outcome (env : Env) (req : Req)
    (message : value) (userPrompt fromUser toUser : value) (st : HState) :
  delivers env req message ->
  read message "MsgType" = Ret (VString (js "text")) ->
  read message "Content" = Ret userPrompt ->
  read message "FromUserName" = Ret fromUser ->
  read message "ToUserName" = Ret toUser ->
  forall (content : jsstring) (st2 : HState),
  (let st1 := logged (logged (logged st (EvParse (raw_body req)))
                        (EvConsoleLog fromUser userPrompt))
                (EvGenerate Webhook.model_name userPrompt) in
   match generateContent env Webhook.model_name userPrompt with
   | Ret text => content = default no_text text /\ st2 = st1
   | Throw err =>
       content = fallback
       /\ st2 = logged st1 (EvConsoleError (js "Gemini API Error:") err)
   end) ->
  let p := {| ToUserName := fromUser; FromUserName := toUser;
              CreateTime := (Date_now env / 1000)%Z;
              MsgType := js "text"; Content := content |} in
  Webhook.handleMessage env req st
  = (Ret tt,
     match buildObject env p with
     | Ret xml => replied st2 p xml
     | Throw e => caught (logged st2 (EvBuild p)) e
     end).
Proof.
  intros (Hread & parsedXml & Hparse & Hroot) Htype Hcontent Hfrom Hto
    content st2 Hapi p.
  unfold Webhook.handleMessage, try_catch.
  rewrite bind_getRawBody, Hread, bind_emit, bind_lift, Hparse.
  rewrite bind_root, Hroot, bind_read, Htype, is_text_text.
  cbn [negb].
  rewrite bind_read, Hcontent, bind_read, Hfrom, bind_read, Hto.
  rewrite bind_emit, bind_getGeminiResponse. cbv zeta in Hapi |- *.
  assert (Hp : forall st', Webhook.sendReply env
            (VObject [("FromUserName"%string, VArray [toUser]);
                      ("ToUserName"%string, VArray [fromUser])]) content st'
          = match buildObject env p with
            | Ret xml => (Ret tt, replied st' p xml)
            | Throw e => (Throw e, logged st' (EvBuild p))
            end).
  { intros st'. rewrite sendReply_eq.
    assert (read (VObject [("FromUserName"%string, VArray [toUser]);
                           ("ToUserName"%string, VArray [fromUser])])
              "ToUserName" = Ret fromUser) as -> by reflexivity.
    assert (read (VObject [("FromUserName"%string, VArray [toUser]);
                           ("ToUserName"%string, VArray [fromUser])])
              "FromUserName" = Ret toUser) as -> by reflexivity.
    reflexivity. }
  destruct (generateContent env Webhook.model_name userPrompt) as [text|err];
    destruct Hapi as [-> ->]; rewrite Hp;
    by destruct (buildObject env p).
Qed.


Lemma replied_replies (env : Env) (st : HState) (p : payload) (xml : jsstring) :
  buildObject env p = Ret xml -> replies_with env (res (replied st p xml)) p.
Proof.
  intros Hbuild. exists xml. cbn [replied res statusCode headers sent].
  by rewrite lookup_insert_eq.
Qed.

(** ** The message round trip *)

(** C2, as the code has it. A text message is answered with the envelope
    addressed back to its sender, of type text, whose content is the text
    the API returned for the inbound content, whenever the builder
    serialises that envelope; when the builder throws on it the answer is
    200 with an empty body. *)
Theorem text_message_reply (env : Env) (req : Req) (message : value)
    (content fromUser toUser text : jsstring) :
  delivers env req message ->
  read message "MsgType" = Ret (VString (js "text")) ->
  read message "Content" = Ret (VString content) ->
  read message "FromUserName" = Ret (VString fromUser) ->
  read message "ToUserName" = Ret (VString toUser) ->
  generateContent env Webhook.model_name (VString content) = Ret (Some text) ->
  let p := {| ToUserName := VString fromUser;
              FromUserName := VString toUser;
              CreateTime := (Date_now env / 1000)%Z;
              MsgType := js "text";
              Content := text |} in
  let r := res (snd (Webhook.handleMessage env req Webhook.init)) in
  match buildObject env p with
  | Ret xml => replies_with env r p /\ sent r = Some (BText xml)
  | Throw _ => r = empty_reply
  end.
Proof.
  intros Hd Htype Hcontent Hfrom Hto Hapi p.
  rewrite (handleMessage_text_outcome env req message _ _ _ Webhook.init
             Hd Htype Hcontent Hfrom Hto text
             (logged (logged (logged Webhook.init (EvParse (raw_body req)))
                        (EvConsoleLog (VString fromUser) (VString content)))
                (EvGenerate Webhook.model_name (VString content)))).
  - fold p. cbv zeta.
    destruct (buildObject env p) as [xml|e] eqn:Hbuild; cbn [snd].
    + split; [by apply replied_replies | reflexivity].
    + reflexivity.
  - cbv zeta. rewrite Hapi. split; reflexivity.
Qed.

Lemma fixture_delivers_text (api : jsstring -> value -> outcome (option jsstring)) :
  delivers (Fixture.env api) (Fixture.post Fixture.text_xml) Fixture.text_message.
Proof.
  split; [reflexivity|].
  exists (VObject [("xml"%string, Fixture.text_message)]).
  split; [vm_compute; reflexivity | reflexivity].
Qed.

Lemma fixture_delivers_image (api : jsstring -> value -> outcome (option jsstring)) :
  delivers (Fixture.env api) (Fixture.post Fixture.image_xml) Fixture.image_message.
Proof.
  split; [reflexivity|].
  exists (VObject [("xml"%string, Fixture.image_message)]).
  split; [vm_compute; reflexivity | reflexivity].
Qed.

Lemma fixture_delivers_text_strict
    (api : jsstring -> value -> outcome (option jsstring)) :
  delivers (Fixture.env_strict api) (Fixture.post Fixture.text_xml)
    Fixture.text_message.
Proof.
  split; [reflexivity|].
  exists (VObject [("xml"%string, Fixture.text_message)]).
  split; [vm_compute; reflexivity | reflexivity].
Qed.

Lemma strict_builder_not_empty (p : payload) : Fixture.strict_builder p <> Ret [].
Proof.
  unfold Fixture.strict_builder, Fixture.builder.
  destruct (existsb _ _); [discriminate|].
  change (js "<xml><ToUserName>") with (60 :: js "xml><ToUserName>").
  discriminate.
Qed.

Lemma text_message_reply_witness :
  let env := Fixture.env Fixture.api_answers in
  let req := Fixture.post Fixture.text_xml in
  let p := {| ToUserName := VString (js "user_openid");
              FromUserName := VString (js "gh_account");
              CreateTime := (Date_now env / 1000)%Z;
              MsgType := js "text";
              Content := js "Hi there!" |} in
  let r := res (snd (Webhook.handleMessage env req Webhook.init)) in
  (delivers env req Fixture.text_message
   /\ generateContent env Webhook.model_name (VString (js "hello"))
      = Ret (Some (js "Hi there!")))
  /\ match buildObject env p with
     | Ret xml => replies_with env r p /\ sent r = Some (BText xml)
     | Throw _ => r = empty_reply
     end.
Proof.
  intros env req p r.
  split; [split; [apply fixture_delivers_text | reflexivity]|].
  refine (text_message_reply env req Fixture.text_message
            (js "hello") (js "user_openid") (js "gh_account") (js "Hi there!")
            (fixture_delivers_text _) _ _ _ _ _);
    reflexivity.
Defined.

(** C2, as stated, fails: when the API's text holds a backspace the
    builder throws, and the text message is answered 200 with an empty
    body, which is the envelope of no payload. *)
Lemma text_message_envelope_not_sent :
  let env := Fixture.env_strict Fixture.api_backspace in
  let req := Fixture.post Fixture.text_xml in
  let r := Webhook.response env req in
  delivers env req Fixture.text_message
  /\ read Fixture.text_message "MsgType" = Ret (VString (js "text"))
  /\ read Fixture.text_message "Content" = Ret (VString (js "hello"))
  /\ generateContent env Webhook.model_name (VString (js "hello"))
     = Ret (Some [72; 8; 105])
  /\ r = empty_reply
  /\ forall p, ~ replies_with env r p.
Proof.
  intros env req r.
  assert (Hr : r = empty_reply) by (vm_compute; reflexivity).
  split; [apply fixture_delivers_text_strict|].
  repeat split; try reflexivity; try exact Hr.
  intros p (xml & Hbuild & _ & _ & Hsent).
  rewrite Hr in Hsent. injection Hsent as <-.
  by apply (strict_builder_not_empty p).
Qed.

(** C4, as the code has it. When the API call throws while a text message
    is handled, the answer is status 200 with the envelope addressed back
    to the sender whose content is the fixed fallback sentence of
    [getGeminiResponse], as the builder serialises it; the empty body comes
    only when the builder itself throws on that envelope. *)
Theorem api_failure_reply (env : Env) (req : Req) (message : value)
    (content fromUser toUser : jsstring) (err : thrown) :
  delivers env req message ->
  read message "MsgType" = Ret (VString (js "text")) ->
  read message "Content" = Ret (VString content) ->
  read message "FromUserName" = Ret (VString fromUser) ->
  read message "ToUserName" = Ret (VString toUser) ->
  generateContent env Webhook.model_name (VString content) = Throw err ->
  let p := {| ToUserName := VString fromUser;
              FromUserName := VString toUser;
              CreateTime := (Date_now env / 1000)%Z;
              MsgType := js "text";
              Content :=
                js "Sorry, I'm having trouble thinking right now. Please try again later." |} in
  let r := res (snd (Webhook.handleMessage env req Webhook.init)) in
  statusCode r = 200%Z
  /\ match buildObject env p with
     | Ret xml => replies_with env r p /\ sent r = Some (BText xml)
     | Throw _ => r = empty_reply
     end.
Proof.
  intros Hd Htype Hcontent Hfrom Hto Hapi p.
  rewrite (handleMessage_text_outcome env req message _ _ _ Webhook.init
             Hd Htype Hcontent Hfrom Hto fallback
             (logged
                (logged (logged (logged Webhook.init (EvParse (raw_body req)))
                           (EvConsoleLog (VString fromUser) (VString content)))
                   (EvGenerate Webhook.model_name (VString content)))
                (EvConsoleError (js "Gemini API Error:") err))).
  - change {| ToUserName := VString fromUser; FromUserName := VString toUser;
              CreateTime := (Date_now env / 1000)%Z; MsgType := js "text";
              Content := fallback |} with p.
    cbv zeta.
    destruct (buildObject env p) as [xml|e] eqn:Hbuild; cbn [snd].
    + split; [reflexivity|]. split; [by apply replied_replies | reflexivity].
    + split; reflexivity.
  - cbv zeta. rewrite Hapi. split; reflexivity.
Qed.

Lemma api_failure_reply_witness :
  let env := Fixture.env Fixture.api_down in
  let req := Fixture.post Fixture.text_xml in
  let p := {| ToUserName := VString (js "user_openid");
              FromUserName := VString (js "gh_account");
              CreateTime := (Date_now env / 1000)%Z;
              MsgType := js "text";
              Content :=
                js "Sorry, I'm having trouble thinking right now. Please try again later." |} in
  let r := res (snd (Webhook.handleMessage env req Webhook.init)) in
  (delivers env req Fixture.text_message
   /\ generateContent env Webhook.model_name (VString (js "hello"))
      = Throw (ErrorObj (js "503 Service Unavailable")))
  /\ statusCode r = 200%Z
  /\ match buildObject env p with
     | Ret xml => replies_with env r p /\ sent r = Some (BText xml)
     | Throw _ => r = empty_reply
     end.
Proof.
  intros env req p r.
  split; [split; [apply fixture_delivers_text | reflexivity]|].
  refine (api_failure_reply env req Fixture.text_message
            (js "hello") (js "user_openid") (js "gh_account") _
            (fixture_delivers_text _) _ _ _ _ _);
    reflexivity.
Defined.

(** C4, as stated, fails: with the API down the body is not empty, it is
    what the builder made of the envelope carrying the fallback sentence. *)
Lemma api_failure_body_not_empty :
  let env := Fixture.env Fixture.api_down in
  let req := Fixture.post Fixture.text_xml in
  let r := Webhook.response env req in
  let p := {| ToUserName := VString (js "user_openid");
              FromUserName := VString (js "gh_account");
              CreateTime := 1700000000;
              MsgType := js "text";
              Content := fallback |} in
  delivers env req Fixture.text_message
  /\ read Fixture.text_message "MsgType" = Ret (VString (js "text"))
  /\ read Fixture.text_message "Content" = Ret (VString (js "hello"))
  /\ generateContent env Webhook.model_name (VString (js "hello"))
     = Throw (ErrorObj (js "503 Service Unavailable"))
  /\ statusCode r = 200%Z
  /\ (exists xml, buildObject env p = Ret xml /\ sent r = Some (BText xml))
  /\ sent r <> Some (BText []).
Proof.
  intros env req r p.
  split; [apply fixture_delivers_text|].
  repeat split; try (vm_compute; reflexivity).
  - eexists. split; [reflexivity|]. vm_compute. reflexivity.
  - vm_compute. discriminate.
Qed.

(** One step of the message handler inside an equation [H]. *)
Ltac hm_step H :=
  first
    [ rewrite bind_getRawBody in H
    | rewrite bind_emit in H
    | rewrite bind_lift in H
    | rewrite bind_root in H
    | rewrite bind_read in H
    | rewrite bind_getGeminiResponse in H; cbv zeta in H
    | rewrite sendReply_eq in H; cbv zeta in H
    | match type of H with
      | context [match ?x with _ => _ end] => destruct x eqn:?
      end ];
  try discriminate H.

(** A [try]/[catch] answers when its [try] block does so on completion
    and its [catch] block does so always. *)
Lemma try_catch_answers (m : M HState unit) (h : thrown -> M HState unit)
    (P : HState -> Prop) (st : HState) :
  (forall u st1, m st = (Ret u, st1) -> P st1) ->
  (forall e st1, fst (h e st1) = Ret tt /\ P (snd (h e st1))) ->
  fst (try_catch m h st) = Ret tt /\ P (snd (try_catch m h st)).
Proof.
  intros Hm Hh. unfold try_catch.
  destruct (m st) as [[[]|e] st1] eqn:E.
  - split; [reflexivity|]. by apply (Hm ()).
  - apply Hh.
Qed.

(** C5. Whatever the body, the parser, the API and the builder do, the
    message handler completes and answers, and its status is 200. *)
Theorem message_always_200 (env : Env) (req : Req) (st : HState) :
  let out := Webhook.handleMessage env req st in
  fst out = Ret tt
  /\ statusCode (res (snd out)) = 200%Z
  /\ is_Some (sent (res (snd out))).
Proof.
  cbv zeta. unfold Webhook.handleMessage.
  apply (try_catch_answers _ _
           (fun st' => statusCode (res st') = 200%Z /\ is_Some (sent (res st')))).
  - (* the [try] block ran to its end: [sendReply] has answered *)
    intros u st1 E.
    repeat hm_step E;
      injection E as _ <-; cbn [replied res statusCode sent]; eauto.
  - (* something was thrown: the [catch] block answers *)
    intros e st1. mred. eauto.
Qed.

(** The entry point hands a POST request to the message handler and a
    GET request to the verification handler. *)
Lemma handler_dispatch (env : Env) (req : Req) :
  (method req = "POST"%string ->
   Webhook.handler env req = Webhook.handleMessage env req)
  /\ (method req = "GET"%string ->
      Webhook.handler env req = Webhook.handleVerification env req).
Proof. unfold Webhook.handler. split; intros ->; reflexivity. Qed.

(** A body that is not XML, an API that is down, a builder that fails:
    200 with an empty body. *)
Example malformed_body_200 :
  Webhook.response (Fixture.env Fixture.api_answers) (Fixture.post [js "not xml"])
  = {| statusCode := 200; headers := ∅; sent := Some (BText []) |}.
Proof. vm_compute. reflexivity. Qed.



(** C3 fails on the non-text path: [sendReply] is handed the inbound
    message itself, so the apology goes out with the inbound names in
    place, to the account and from the user. *)
Theorem other_message_names_not_swapped :
  let env := Fixture.env Fixture.api_answers in
  let req := Fixture.post Fixture.image_xml in
  let out := Webhook.run env req in
  delivers env req Fixture.image_message
  /\ read Fixture.image_message "FromUserName" = Ret (VString (js "user_openid"))
  /\ read Fixture.image_message "ToUserName" = Ret (VString (js "gh_account"))
  /\ exists p,
       replies_with env (res (snd out)) p
       /\ trace (snd out) = [EvParse (raw_body req); EvBuild p]
       /\ ToUserName p = VString (js "gh_account")
       /\ FromUserName p = VString (js "user_openid")
       /\ ToUserName p <> VString (js "user_openid").
Proof.
  intros env req out.
  split; [apply fixture_delivers_image|].
  split; [reflexivity|]. split; [reflexivity|].
  exists {| ToUserName := VString (js "gh_account");
            FromUserName := VString (js "user_openid");
            CreateTime := 1700000000;
            MsgType := js "text"; Content := Webhook.apology |}.
  split.
  - eexists. repeat split; vm_compute; reflexivity.
  - repeat split; try (vm_compute; reflexivity). vm_compute. discriminate.
Qed.

(** In general the non-text reply carries the inbound names unswapped. *)
Lemma other_message_reply_names (env : Env) (req : Req)
    (message msgType fromUser toUser : value) (xml : jsstring) :
  delivers env req message ->
  read message "MsgType" = Ret msgType ->
  Webhook.is_text msgType = false ->
  read message "FromUserName" = Ret fromUser ->
  read message "ToUserName" = Ret toUser ->
  let p := {| ToUserName := toUser; FromUserName := fromUser;
              CreateTime := (Date_now env / 1000)%Z;
              MsgType := js "text"; Content := Webhook.apology |} in
  buildObject env p = Ret xml ->
  replies_with env (res (snd (Webhook.handleMessage env req Webhook.init))) p.
Proof.
  intros Hd Htype Hnot Hfrom Hto p Hbuild.
  rewrite (handleMessage_other env req message msgType fromUser toUser
             Webhook.init xml Hd Htype Hnot Hfrom Hto Hbuild).
  by apply replied_replies.
Qed.

(** ** The prompt form *)

Lemma trimStart_nil (s : jsstring) : trimStart s = [] <-> blank s.
Proof.
  unfold blank. induction s as [|c s IH]; simpl.
  - split; [constructor | done].
  - destruct (is_ws c) eqn:E.
    + rewrite IH. split; [by constructor | by inversion 1].
    + split; [done|]. inversion 1; congruence.
Qed.

Lemma trimStart_blank (s : jsstring) : blank (trimStart s) -> blank s.
Proof.
  unfold blank. induction s as [|c s IH]; simpl; [done|].
  destruct (is_ws c) eqn:E; [|done].
  intros H. constructor; [done | by apply IH].
Qed.

(** [!prompt.trim()] holds exactly for a blank prompt. *)
Lemma trim_blank (s : jsstring) : Form.falsy (trim s) = true <-> blank s.
Proof.
  assert (Hf : forall l : jsstring, Form.falsy l = true <-> l = [])
    by (intros [|? ?]; simpl; split; congruence).
  rewrite Hf. unfold trim, trimEnd. split.
  - intros H. apply trimStart_blank.
    apply (f_equal (@rev N)) in H. rewrite rev_involutive in H. simpl in H.
    apply trimStart_nil in H. unfold blank in *.
    rewrite <- (rev_involutive (trimStart s)). by apply Forall_rev.
  - intros H. apply trimStart_nil in H. by rewrite H.
Qed.

(** C9. A blank prompt makes no API call and leaves the state, hence the
    screen, as it was; a successful call leaves the returned text in the
    response and an empty error; a failing call leaves the error's
    message in the error and an empty response. *)
Theorem submit_outcomes
    (api : jsstring -> value -> outcome (option jsstring)) (st : Form.AppState) :
  let out := Form.submit api st in
  let st' := Form.app (snd out) in
  (blank (Form.prompt st) ->
     st' = st
     /\ Form.render st' = Form.render st
     /\ forall model contents, EvGenerate model contents ∉ Form.calls (snd out))
  /\ (~ blank (Form.prompt st) ->
      forall text,
        api Form.model_name (VString (Form.prompt st)) = Ret (Some text) ->
        Form.response st' = text /\ Form.error st' = []
        /\ Form.errorBox (Form.render st') = None
        /\ (text <> [] -> Form.responseBox (Form.render st') = Some text)
        /\ Form.loading st' = false)
  /\ (~ blank (Form.prompt st) ->
      forall message,
        api Form.model_name (VString (Form.prompt st)) = Throw (ErrorObj message) ->
        Form.error st' = message /\ Form.response st' = []
        /\ Form.responseBox (Form.render st') = None
        /\ (message <> [] -> Form.errorBox (Form.render st') = Some message)
        /\ Form.loading st' = false).
Proof.
  destruct st as [p r l e].
  cbv zeta. unfold Form.submit, Form.handleSubmit. fred.
  destruct (Form.falsy (trim p)) eqn:E.
  - assert (Hb : blank p) by by apply trim_blank.
    fred. split; [|split; intros Hn; by destruct Hn].
    intros _. split; [reflexivity|]. split; [reflexivity|].
    intros model contents. cbn [app]. rewrite elem_of_cons, elem_of_nil.
    intros [?|[]]; discriminate.
  - assert (Hn : ~ blank p).
    { intros Hb. apply trim_blank in Hb. congruence. }
    split; [intros Hb; by destruct Hn|].
    split; intros _ x Hapi; fred; rewrite Hapi; fred;
      repeat split; try reflexivity; by destruct x.
Qed.

(** A thrown value that is not an [Error] shows the fixed sentence, and
    an answer without text shows nothing. *)
Lemma submit_other_outcomes
    (api : jsstring -> value -> outcome (option jsstring)) (st : Form.AppState) :
  ~ blank (Form.prompt st) ->
  let st' := Form.app (snd (Form.submit api st)) in
  (api Form.model_name (VString (Form.prompt st)) = Throw NonError ->
   Form.error st' = js "An unknown error occurred." /\ Form.response st' = [])
  /\ (api Form.model_name (VString (Form.prompt st)) = Ret None ->
      Form.error st' = [] /\ Form.response st' = []).
Proof.
  destruct st as [p r l e]. intros Hn.
  cbv zeta. unfold Form.submit, Form.handleSubmit. fred.
  destruct (Form.falsy (trim p)) eqn:E.
  { destruct Hn. by apply trim_blank. }
  split; intros Hapi; fred; rewrite Hapi; fred; split; reflexivity.
Qed.

Lemma submit_outcomes_witness :
  (blank (Form.prompt Fixture.idle)
   /\ Form.app (snd (Form.submit Fixture.api_answers Fixture.idle)) = Fixture.idle)
  /\ (~ blank (Form.prompt Fixture.asking_after_error)
      /\ Form.response
           (Form.app (snd (Form.submit Fixture.api_answers Fixture.asking_after_error)))
         = js "Hi there!"
      /\ Form.error
           (Form.app (snd (Form.submit Fixture.api_answers Fixture.asking_after_error)))
         = [])
  /\ (~ blank (Form.prompt Fixture.asking)
      /\ Form.error (Form.app (snd (Form.submit Fixture.api_down Fixture.asking)))
         = js "503 Service Unavailable"
      /\ Form.response (Form.app (snd (Form.submit Fixture.api_down Fixture.asking)))
         = []).
Proof.
  assert (Hblank : blank (Form.prompt Fixture.idle))
    by (repeat constructor).
  assert (Hask : forall st, Form.prompt st = js "Why is the sky blue?" -> ~ blank (Form.prompt st)).
  { intros st -> Hb. inversion Hb as [|c l Hc _]. vm_compute in Hc. discriminate. }
  split; [|split].
  - split; [exact Hblank|].
    exact (proj1 (proj1 (submit_outcomes Fixture.api_answers Fixture.idle) Hblank)).
  - split; [by apply Hask|].
    destruct (proj1 (proj2 (submit_outcomes Fixture.api_answers
                              Fixture.asking_after_error))
                (Hask Fixture.asking_after_error eq_refl)
                (js "Hi there!") eq_refl) as (H1 & H2 & _).
    split; assumption.
  - split; [by apply Hask|].
    destruct (proj2 (proj2 (submit_outcomes Fixture.api_down Fixture.asking))
                (Hask Fixture.asking eq_refl)
                (js "503 Service Unavailable") eq_refl)
      as (H1 & H2 & _).
    split; assumption.
Defined.

(** What the three fixture submits leave on the screen. *)
Example submit_renders :
  Form.render (Form.app (snd (Form.submit Fixture.api_answers Fixture.asking_after_error)))
  = {| Form.inputDisabled := false; Form.buttonDisabled := false;
       Form.errorBox := None; Form.responseBox := Some (js "Hi there!") |}
  /\ Form.render (Form.app (snd (Form.submit Fixture.api_down Fixture.asking)))
     = {| Form.inputDisabled := false; Form.buttonDisabled := false;
          Form.errorBox := Some (js "503 Service Unavailable");
          Form.responseBox := None |}
  /\ Form.calls (snd (Form.submit Fixture.api_answers Fixture.idle))
     = [EvPreventDefault].
Proof. repeat split; vm_compute; reflexivity. Qed.

(** * Further properties of the code *)

(** ** The entry point and the module's start-up *)

(** X1. A request whose method is neither GET nor POST is answered 405
    "Method Not Allowed" at once: nothing is hashed, parsed, generated or
    built. *)
Theorem handler_method_not_allowed (env : Env) (req : Req) :
  method req <> "GET"%string ->
  method req <> "POST"%string ->
  Webhook.run env req
  = (Ret tt,
     {| res := {| statusCode := 405; headers := ∅;
                  sent := Some (BText (js "Method Not Allowed")) |};
        trace := [] |}).
Proof.
  intros Hget Hpost. unfold Webhook.run, Webhook.handler.
  apply String.eqb_neq in Hget. apply String.eqb_neq in Hpost.
  rewrite Hget, Hpost. reflexivity.
Qed.

Lemma handler_method_not_allowed_witness :
  (method Fixture.put <> "GET"%string /\ method Fixture.put <> "POST"%string)
  /\ Webhook.run (Fixture.env Fixture.api_answers) Fixture.put
     = (Ret tt,
        {| res := {| statusCode := 405; headers := ∅;
                     sent := Some (BText (js "Method Not Allowed")) |};
           trace := [] |}).
Proof.
  assert (H1 : method Fixture.put <> "GET"%string) by (vm_compute; discriminate).
  assert (H2 : method Fixture.put <> "POST"%string) by (vm_compute; discriminate).
  split; [split; assumption|].
  exact (handler_method_not_allowed (Fixture.env Fixture.api_answers)
           Fixture.put H1 H2).
Defined.

(** X2. Loading the module throws exactly when one of the two settings
    is absent or is the empty string; otherwise both are kept as given. *)
Theorem loadModule_throws_iff (key tok : option jsstring) :
  ((exists e, Webhook.loadModule key tok = Throw e)
   <-> (key = None \/ key = Some [] \/ tok = None \/ tok = Some []))
  /\ ((exists k t, Webhook.loadModule key tok = Ret (k, t))
      <-> (exists k t, key = Some k /\ tok = Some t /\ k <> [] /\ t <> [])).
Proof.
  unfold Webhook.loadModule.
  destruct key as [[|k0 ks]|], tok as [[|t0 ts]|]; split; split;
    try (intros [e H]; discriminate H);
    try (intros (k & t & H); discriminate H);
    try (intros _; eexists; reflexivity);
    try (intros _; eauto 10; fail);
    try (intros [H|[H|[H|H]]]; discriminate H);
    try (intros (k & t & H1 & H2 & H3 & H4); simplify_eq; done).
Qed.

(** ** The two helpers of the message handler *)

(** X4. [getGeminiResponse] never throws and never touches the response:
    it returns the API's text, or one fixed sentence when the answer has
    no text and another when the call throws, after exactly one call. *)
Theorem getGeminiResponse_never_throws (env : Env) (prompt : value) (st : HState) :
  let out := Webhook.getGeminiResponse env prompt st in
  fst out
  = Ret (match generateContent env Webhook.model_name prompt with
         | Ret (Some text) => text
         | Ret None => js "I'm not sure how to respond to that."
         | Throw _ =>
             js "Sorry, I'm having trouble thinking right now. Please try again later."
         end)
  /\ res (snd out) = res st
  /\ count_events is_generate (trace (snd out))
     = S (count_events is_generate (trace st)).
Proof.
  assert (Hc : forall l e, count_events is_generate (l ++ [e])
                 = (count_events is_generate l
                    + if is_generate e then 1 else 0)%nat).
  { intros l e. induction l as [|x l IH]; simpl.
    - by destruct (is_generate e).
    - destruct (is_generate x); simpl; by rewrite IH. }
  cbv zeta. unfold Webhook.getGeminiResponse.
  mred. destruct (generateContent env Webhook.model_name prompt) as [[text|]|err];
    mred; rewrite ?Hc; simpl; (split; [reflexivity|]); (split; [reflexivity|]); lia.
Qed.

(** X5. [sendReply] is all or nothing: either it sends the built envelope
    with status 200 and the XML content type, the content being the one it
    was given and the type text, or it throws and leaves the response as
    it was. *)
Theorem sendReply_all_or_nothing
    (env : Env) (originalMessage : value) (content : jsstring) (st : HState) :
  let out := Webhook.sendReply env originalMessage content st in
  match fst out with
  | Ret _ =>
      exists p xml,
        buildObject env p = Ret xml
        /\ Content p = content /\ MsgType p = js "text"
        /\ res (snd out)
           = {| statusCode := 200;
                headers := <["Content-Type"%string := js "application/xml"]>
                             (headers (res st));
                sent := Some (BText xml) |}
  | Throw _ => res (snd out) = res st
  end.
Proof.
  cbv zeta. rewrite sendReply_eq.
  destruct (read originalMessage "ToUserName") as [to|e]; [|reflexivity].
  destruct (read originalMessage "FromUserName") as [from|e]; [|reflexivity].
  cbv zeta.
  destruct (buildObject env _) as [xml|e] eqn:Hbuild; [|reflexivity].
  cbn [fst snd]. eexists _, xml. split; [exact Hbuild|].
  repeat split.
Qed.

(** ** The message handler on every input *)

(** Every run of the message handler from a fresh response: [E] is the
    equation of the [try] block, taken to the end of each path. *)
Ltac hm_paths E :=
  unfold Webhook.handleMessage, try_catch;
  match goal with
  | |- context [match ?m Webhook.init with _ => _ end] =>
      destruct (m Webhook.init) as [[[]|?] ?] eqn:E
  end;
  repeat hm_step E; simplify_eq.

(** X6. The message handler has two answers only: the XML reply, with
    the builder's text as body and the XML content type, after the
    builder was called last; or status 200 with an empty body and no
    header, after the thrown value was logged. *)
Theorem handleMessage_reply_or_empty (env : Env) (req : Req) :
  let out := Webhook.handleMessage env req Webhook.init in
  (exists p xml,
     buildObject env p = Ret xml
     /\ res (snd out)
        = {| statusCode := 200;
             headers := <["Content-Type"%string := js "application/xml"]> ∅;
             sent := Some (BText xml) |}
     /\ last (trace (snd out)) = Some (EvBuild p))
  \/ (res (snd out) = empty_reply
      /\ exists e, last (trace (snd out)) = Some (EvConsoleError error_label e)).
Proof.
  cbv zeta. hm_paths E;
    solve [ left; eexists _, _; split; [eassumption|]; split; reflexivity
          | right; split; [reflexivity|]; eexists; reflexivity ].
Qed.

(** X7. One request costs at most one call of the parser, one of the API
    and one of the builder, whatever they return: nothing is retried, and
    no digest is computed. *)
Theorem handleMessage_no_retries (env : Env) (req : Req) :
  let t := trace (snd (Webhook.handleMessage env req Webhook.init)) in
  (count_events is_parse t <= 1)%nat
  /\ (count_events is_generate t <= 1)%nat
  /\ (count_events is_build t <= 1)%nat
  /\ count_events is_digest t = O.
Proof.
  cbv zeta. hm_paths E; vm_compute; repeat split; lia.
Qed.

(** X8. Whatever envelope the handler builds is of type text, is stamped
    with the current time in whole seconds, rounded down, and carries the
    apology, one of the two fixed sentences, or a text the API returned. *)
Theorem built_payload_shape (env : Env) (req : Req) (p : payload) :
  EvBuild p ∈ trace (snd (Webhook.handleMessage env req Webhook.init)) ->
  MsgType p = js "text"
  /\ (1000 * CreateTime p <= Date_now env < 1000 * CreateTime p + 1000)%Z
  /\ (Content p = Webhook.apology
      \/ Content p = fallback
      \/ Content p = no_text
      \/ exists prompt,
           generateContent env Webhook.model_name prompt = Ret (Some (Content p))).
Proof.
  assert (Hdiv : (1000 * (Date_now env / 1000) <= Date_now env
                  < 1000 * (Date_now env / 1000) + 1000)%Z).
  { pose proof (Z.div_mod (Date_now env) 1000).
    pose proof (Z.mod_pos_bound (Date_now env) 1000). lia. }
  revert p. hm_paths E; intros p Hin;
    unfold replied, logged, Webhook.init in Hin;
    cbv beta iota zeta delta
      [mbind M_bind mret M_ret emit res_status res_send res trace snd app] in Hin;
    repeat (rewrite ?elem_of_cons, ?elem_of_nil in Hin);
    repeat match goal with
           | H : _ \/ _ |- _ => destruct H
           | H : False |- _ => destruct H
           | H : _ = EvBuild _ |- _ => first [discriminate H | injection H as <-]
           | H : EvBuild _ = _ |- _ => first [discriminate H | injection H as ->]
           end;
    (split; [reflexivity|]); (split; [exact Hdiv|]); cbn [Content];
    try (left; reflexivity);
    try (right; left; reflexivity);
    match goal with
    | H : generateContent _ _ ?v = Ret ?o |- _ =>
        destruct o; [right; right; right; exists v; exact H
                    | right; right; left; reflexivity]
    end.
Qed.

Lemma built_payload_shape_witness :
  let env := Fixture.env Fixture.api_answers in
  let req := Fixture.post Fixture.text_xml in
  let p := {| ToUserName := VString (js "user_openid");
              FromUserName := VString (js "gh_account");
              CreateTime := 1700000000;
              MsgType := js "text";
              Content := js "Hi there!" |} in
  EvBuild p ∈ trace (snd (Webhook.handleMessage env req Webhook.init))
  /\ MsgType p = js "text"
  /\ (1000 * CreateTime p <= Date_now env < 1000 * CreateTime p + 1000)%Z
  /\ (Content p = Webhook.apology
      \/ Content p = fallback
      \/ Content p = no_text
      \/ exists prompt,
           generateContent env Webhook.model_name prompt = Ret (Some (Content p))).
Proof.
  intros env req p.
  assert (Hin : EvBuild p ∈ trace (snd (Webhook.handleMessage env req Webhook.init))).
  { assert (Ht : trace (snd (Webhook.handleMessage env req Webhook.init))
               = [EvParse (raw_body req);
                  EvConsoleLog (VString (js "user_openid")) (VString (js "hello"));
                  EvGenerate Webhook.model_name (VString (js "hello"));
                  EvBuild p]) by (vm_compute; reflexivity).
    rewrite Ht. rewrite !elem_of_cons. auto. }
  split; [exact Hin|].
  exact (built_payload_shape env req p Hin).
Defined.

(** ** The edges of the message round trip *)



(** X10. A text message that lacks its Content, FromUserName or
    ToUserName element is answered 200 with an empty body, and neither
    the API nor the builder is called for it. *)
Theorem text_message_missing_element (env : Env) (req : Req) (message : value)
    (k : string) (e : thrown) :
  delivers env req message ->
  read message "MsgType" = Ret (VString (js "text")) ->
  k ∈ ["Content"; "FromUserName"; "ToUserName"]%string ->
  read message k = Throw e ->
  let out := Webhook.handleMessage env req Webhook.init in
  res (snd out) = empty_reply
  /\ count_events is_generate (trace (snd out)) = O
  /\ count_events is_build (trace (snd out)) = O.
Proof.
  intros (Hread & parsedXml & Hparse & Hroot) Htype Hk Hmiss.
  cbv zeta. unfold Webhook.handleMessage, try_catch.
  rewrite bind_getRawBody, Hread, bind_emit, bind_lift, Hparse.
  rewrite bind_root, Hroot, bind_read, Htype, is_text_text.
  cbn [negb]. rewrite bind_read.
  destruct (read message "Content") as [c|ec] eqn:HC;
    [|repeat split; reflexivity].
  rewrite bind_read.
  destruct (read message "FromUserName") as [f|ef] eqn:HF;
    [|repeat split; reflexivity].
  rewrite bind_read.
  destruct (read message "ToUserName") as [t|et] eqn:HT;
    [|repeat split; reflexivity].
  exfalso. rewrite !elem_of_cons, elem_of_nil in Hk.
  destruct Hk as [->|[->|[->|[]]]]; congruence.
Qed.

Lemma text_message_missing_element_witness :
  let env := Fixture.env_parsing
               (Ret (VObject [("xml"%string, Fixture.text_without_content)]))
               Fixture.api_answers in
  let req := Fixture.post Fixture.text_xml in
  let out := Webhook.handleMessage env req Webhook.init in
  (delivers env req Fixture.text_without_content
   /\ read Fixture.text_without_content "MsgType" = Ret (VString (js "text"))
   /\ read Fixture.text_without_content "Content" = Throw typeError)
  /\ res (snd out) = empty_reply
  /\ count_events is_generate (trace (snd out)) = O
  /\ count_events is_build (trace (snd out)) = O.
Proof.
  intros env req out.
  assert (Hd : delivers env req Fixture.text_without_content).
  { split; [reflexivity|]. eexists. split; reflexivity. }
  assert (Hk : "Content"%string ∈ ["Content"; "FromUserName"; "ToUserName"]%string)
    by (rewrite !elem_of_cons; auto).
  split; [split; [exact Hd | split; reflexivity]|].
  exact (text_message_missing_element env req Fixture.text_without_content
           "Content" typeError Hd eq_refl Hk eq_refl).
Defined.

(** X11. A body that cannot be read, that the parser rejects, that has no
    root, or whose root has no MsgType element is answered 200 with an
    empty body; the thrown value is logged, the parser is called only when
    the body was read, and nothing else is called. *)
Theorem unreadable_message (env : Env) (req : Req) :
  let out := Webhook.handleMessage env req Webhook.init in
  let failed (calls : list event) (err : thrown) :=
    out = (Ret tt, {| res := empty_reply;
                      trace := calls ++ [EvConsoleError error_label err] |}) in
  (forall err, failure (bodyStream req) = Some err -> failed [] err)
  /\ (forall err,
        failure (bodyStream req) = None ->
        parseStringPromise env (raw_body req) = Throw err ->
        failed [EvParse (raw_body req)] err)
  /\ (forall parsedXml err,
        failure (bodyStream req) = None ->
        parseStringPromise env (raw_body req) = Ret parsedXml ->
        root parsedXml = Throw err ->
        failed [EvParse (raw_body req)] err)
  /\ (forall message err,
        delivers env req message ->
        read message "MsgType" = Throw err ->
        failed [EvParse (raw_body req)] err).
Proof.
  cbv zeta. unfold Webhook.handleMessage, try_catch.
  split; [|split; [|split]].
  - intros err Hf. by rewrite bind_getRawBody, Hf.
  - intros err Hf Hp. by rewrite bind_getRawBody, Hf, bind_emit, bind_lift, Hp.
  - intros parsedXml err Hf Hp Hr.
    by rewrite bind_getRawBody, Hf, bind_emit, bind_lift, Hp, bind_root, Hr.
  - intros message err (Hf & parsedXml & Hp & Hr) Hm.
    by rewrite bind_getRawBody, Hf, bind_emit, bind_lift, Hp, bind_root, Hr,
         bind_read, Hm.
Qed.

Lemma unreadable_message_witness :
  let failed env req (calls : list event) (err : thrown) :=
    Webhook.handleMessage env req Webhook.init
    = (Ret tt, {| res := empty_reply;
                  trace := calls ++ [EvConsoleError error_label err] |}) in
  let env := Fixture.env Fixture.api_answers in
  let env_null := Fixture.env_parsing (Ret VNull) Fixture.api_answers in
  let env_html := Fixture.env_parsing
                    (Ret (VObject [("html"%string, VString [])]))
                    Fixture.api_answers in
  let garbage := Fixture.post [js "not xml"] in
  failed env (Fixture.broken Fixture.text_xml) [] (ErrorObj (js "aborted"))
  /\ failed env garbage [EvParse (raw_body garbage)]
       (ErrorObj (js "Non-whitespace before first tag."))
  /\ failed env_null garbage [EvParse (raw_body garbage)] typeError
  /\ failed env_html garbage [EvParse (raw_body garbage)] typeError.
Proof.
  intros failed env env_null env_html garbage.
  split; [|split; [|split]].
  - exact (proj1 (unreadable_message env (Fixture.broken Fixture.text_xml))
             (ErrorObj (js "aborted")) eq_refl).
  - refine (proj1 (proj2 (unreadable_message env garbage)) _ eq_refl _).
    vm_compute; reflexivity.
  - exact (proj1 (proj2 (proj2 (unreadable_message env_null garbage)))
             VNull typeError eq_refl eq_refl eq_refl).
  - refine (proj2 (proj2 (proj2 (unreadable_message env_html garbage)))
              VUndefined typeError _ eq_refl).
    split; [reflexivity|]. eexists. split; reflexivity.
Defined.

(** ** The verification handler on every input *)

(** X12. The verification handler always completes with an answer whose
    status is 400, 403 or 200; it sets no header, and it computes one
    digest unless it answers 400, when it computes none. *)
Theorem handleVerification_answers (env : Env) (req : Req) (st : HState) :
  let out := Webhook.handleVerification env req st in
  fst out = Ret tt
  /\ is_Some (sent (res (snd out)))
  /\ headers (res (snd out)) = headers (res st)
  /\ ((statusCode (res (snd out)) = 400%Z /\ trace (snd out) = trace st)
      \/ ((statusCode (res (snd out)) = 200%Z \/ statusCode (res (snd out)) = 403%Z)
          /\ exists input, trace (snd out) = trace st ++ [EvDigest input])).
Proof.
  cbv zeta. unfold Webhook.handleVerification. cbv zeta.
  destruct (negb _ || negb _ || negb _ || negb _).
  - repeat split; eauto.
  - cbv beta iota zeta delta
      [Webhook.createHash_sha1_hex mbind M_bind mret M_ret emit].
    destruct (Webhook.strict_eq _ _).
    + destruct (Webhook.param req "echostr");
        (split; [reflexivity|]); (split; [cbn; eauto|]); (split; [reflexivity|]);
        right; (split; [left; reflexivity|]); eexists; reflexivity.
    + (split; [reflexivity|]); (split; [cbn; eauto|]); (split; [reflexivity|]).
      right. split; [right; reflexivity|]. eexists. reflexivity.
Qed.

(** X13. A signature parameter that arrives as an array, as a repeated
    one does, is never accepted: with the other three present the answer
    is 403. *)
Theorem repeated_signature_rejected (env : Env) (req : Req) (l : list jsstring) :
  query req !! "signature"%string = Some (QArr l) ->
  Webhook.truthy (Webhook.param req "timestamp") = true ->
  Webhook.truthy (Webhook.param req "nonce") = true ->
  Webhook.truthy (Webhook.param req "echostr") = true ->
  let r := res (snd (Webhook.handleVerification env req Webhook.init)) in
  statusCode r = 403%Z /\ sent r = Some (BText (js "Verification failed.")).
Proof.
  intros Hsig Hts Hnonce Hecho. cbv zeta. unfold Webhook.handleVerification.
  rewrite (param_present _ _ _ Hsig), Hts, Hnonce, Hecho. cbv zeta.
  split; reflexivity.
Qed.

Lemma repeated_signature_rejected_witness :
  let req := Fixture.handshake_repeated in
  let r := res (snd (Webhook.handleVerification
                       (Fixture.env Fixture.api_answers) req Webhook.init)) in
  query req !! "signature"%string
  = Some (QArr [Fixture.signature; Fixture.signature])
  /\ statusCode r = 403%Z /\ sent r = Some (BText (js "Verification failed.")).
Proof.
  intros req r.
  assert (Hq : query req !! "signature"%string
               = Some (QArr [Fixture.signature; Fixture.signature]))
    by (vm_compute; reflexivity).
  split; [exact Hq|].
  refine (repeated_signature_rejected (Fixture.env Fixture.api_answers) req
            _ Hq _ _ _); vm_compute; reflexivity.
Defined.

(** X14. A signature that is not forty lower-case hexadecimal digits, an
    upper-case one for instance, is rejected with 403 whatever the token,
    the timestamp and the nonce are. *)
Theorem misshapen_signature_rejected
    (env : Env) (req : Req) (signature timestamp nonce echostr : jsstring) :
  query req !! "signature"%string = Some (QStr signature) ->
  query req !! "timestamp"%string = Some (QStr timestamp) ->
  query req !! "nonce"%string = Some (QStr nonce) ->
  query req !! "echostr"%string = Some (QStr echostr) ->
  signature <> [] -> timestamp <> [] -> nonce <> [] -> echostr <> [] ->
  (length signature <> 40%nat \/ exists c, c ∈ signature /\ ~ lower_hex c) ->
  statusCode (res (snd (Webhook.handleVerification env req Webhook.init))) = 403%Z.
Proof.
  intros Hsig Hts Hnonce Hecho Nsig Nts Nnonce Necho Hshape.
  unfold Webhook.handleVerification.
  rewrite (param_present _ _ _ Hsig), (param_present _ _ _ Hts),
    (param_present _ _ _ Hnonce), (param_present _ _ _ Hecho). cbv zeta.
  destruct signature as [|s0 sig]; [done|].
  destruct timestamp as [|t0 ts]; [done|].
  destruct nonce as [|n0 no]; [done|].
  destruct echostr as [|e0 ec]; [done|].
  mred. case_bool_decide as Heq; mred; [|reflexivity].
  exfalso.
  destruct (sha1_hex_shape
              (Webhook.Array_join []
                 (Webhook.Array_sort
                    [QStr (WECHAT_TOKEN env); QStr (t0 :: ts); QStr (n0 :: no)])))
    as [Hlen Hhex].
  rewrite Heq in Hlen, Hhex.
  destruct Hshape as [Hn | (c & Hc & Hn)]; [by apply Hn|].
  apply Hn. by apply (proj1 (Forall_forall _ _) Hhex).
Qed.

Lemma misshapen_signature_rejected_witness :
  let req := Fixture.handshake_upper in
  (query req !! "signature"%string = Some (QStr Fixture.signature_upper)
   /\ (exists c, c ∈ Fixture.signature_upper /\ ~ lower_hex c))
  /\ statusCode (res (snd (Webhook.handleVerification
                             (Fixture.env Fixture.api_answers) req Webhook.init)))
     = 403%Z.
Proof.
  intros req.
  assert (Hq : query req !! "signature"%string = Some (QStr Fixture.signature_upper))
    by (vm_compute; reflexivity).
  assert (Hc : exists c, c ∈ Fixture.signature_upper /\ ~ lower_hex c).
  { exists 68. split; [apply list_elem_of_here | unfold lower_hex; lia]. }
  split; [split; assumption|].
  refine (misshapen_signature_rejected (Fixture.env Fixture.api_answers) req
            Fixture.signature_upper Fixture.timestamp Fixture.nonce
            Fixture.echostr Hq _ _ _ _ _ _ _ (or_intror Hc));
    solve [vm_compute; reflexivity | vm_compute; discriminate].
Defined.

(** The digest input depends on the three strings only up to order. *)
Lemma digest_input_perm (l1 l2 : list jsstring) :
  l1 ≡ₚ l2 ->
  Webhook.Array_join [] (Webhook.Array_sort (map QStr l1))
  = Webhook.Array_join [] (Webhook.Array_sort (map QStr l2)).
Proof.
  intros Hperm.
  destruct (Array_sort_strings l1) as (s1 & -> & Hp1 & Hs1).
  destruct (Array_sort_strings l2) as (s2 & -> & Hp2 & Hs2).
  assert (s1 = s2) as ->; [|reflexivity].
  apply (Sorted_unique str_le); [done | done |]. by rewrite Hp1, Hp2, Hperm.
Qed.

(** X15. Because the three strings are sorted before they are hashed,
    the handler cannot tell the timestamp from the nonce: exchanging
    their values changes nothing in the outcome. *)
Theorem verification_timestamp_nonce_exchange
    (env : Env) (req1 req2 : Req) (signature a b echostr : jsstring) :
  query req1 !! "signature"%string = Some (QStr signature) ->
  query req2 !! "signature"%string = Some (QStr signature) ->
  query req1 !! "echostr"%string = Some (QStr echostr) ->
  query req2 !! "echostr"%string = Some (QStr echostr) ->
  query req1 !! "timestamp"%string = Some (QStr a) ->
  query req1 !! "nonce"%string = Some (QStr b) ->
  query req2 !! "timestamp"%string = Some (QStr b) ->
  query req2 !! "nonce"%string = Some (QStr a) ->
  a <> [] -> b <> [] ->
  Webhook.handleVerification env req1 Webhook.init
  = Webhook.handleVerification env req2 Webhook.init.
Proof.
  intros Hs1 Hs2 He1 He2 Ht1 Hn1 Ht2 Hn2 Na Nb.
  unfold Webhook.handleVerification.
  rewrite (param_present _ _ _ Hs1), (param_present _ _ _ Hs2),
    (param_present _ _ _ He1), (param_present _ _ _ He2),
    (param_present _ _ _ Ht1), (param_present _ _ _ Hn1),
    (param_present _ _ _ Ht2), (param_present _ _ _ Hn2). cbv zeta.
  destruct a as [|a0 a]; [done|]. destruct b as [|b0 b]; [done|].
  change [QStr (WECHAT_TOKEN env); QStr (a0 :: a); QStr (b0 :: b)]
    with (map QStr [WECHAT_TOKEN env; a0 :: a; b0 :: b]).
  change [QStr (WECHAT_TOKEN env); QStr (b0 :: b); QStr (a0 :: a)]
    with (map QStr [WECHAT_TOKEN env; b0 :: b; a0 :: a]).
  rewrite (digest_input_perm [WECHAT_TOKEN env; a0 :: a; b0 :: b]
             [WECHAT_TOKEN env; b0 :: b; a0 :: a])
    by (constructor; apply Permutation_swap).
  destruct (Webhook.truthy (QStr signature)), (Webhook.truthy (QStr echostr));
    reflexivity.
Qed.

Lemma verification_timestamp_nonce_exchange_witness :
  let env := Fixture.env Fixture.api_answers in
  (query Fixture.handshake !! "timestamp"%string = Some (QStr Fixture.timestamp)
   /\ query Fixture.handshake_swapped !! "timestamp"%string = Some (QStr Fixture.nonce)
   /\ query Fixture.handshake_swapped !! "nonce"%string = Some (QStr Fixture.timestamp))
  /\ Webhook.handleVerification env Fixture.handshake Webhook.init
     = Webhook.handleVerification env Fixture.handshake_swapped Webhook.init.
Proof.
  intros env.
  split; [repeat split; vm_compute; reflexivity|].
  refine (verification_timestamp_nonce_exchange env Fixture.handshake
            Fixture.handshake_swapped Fixture.signature Fixture.timestamp
            Fixture.nonce Fixture.echostr _ _ _ _ _ _ _ _ _ _);
    solve [vm_compute; reflexivity | vm_compute; discriminate].
Defined.

(** X16. The verification handler reads the token and the four
    parameters and nothing else: two requests that agree on them get the
    same outcome, whatever their method, body and other parameters, and
    whatever the API, the parser, the builder and the clock are. *)
Theorem verification_reads_only_params
    (env1 env2 : Env) (req1 req2 : Req) (st : HState) :
  WECHAT_TOKEN env1 = WECHAT_TOKEN env2 ->
  (forall k, k ∈ verification_params -> query req1 !! k = query req2 !! k) ->
  Webhook.handleVerification env1 req1 st = Webhook.handleVerification env2 req2 st.
Proof.
  intros Htok Hq.
  assert (Hp : forall k, k ∈ verification_params ->
            Webhook.param req1 k = Webhook.param req2 k).
  { intros k Hk. unfold Webhook.param. by rewrite (Hq k Hk). }
  unfold Webhook.handleVerification.
  rewrite Htok, (Hp "signature"%string), (Hp "timestamp"%string),
    (Hp "nonce"%string), (Hp "echostr"%string);
    solve [reflexivity
          | unfold verification_params; rewrite !elem_of_cons; auto].
Qed.

Lemma verification_reads_only_params_witness :
  let env1 := Fixture.env Fixture.api_answers in
  let env2 := Fixture.env_parsing (Ret VNull) Fixture.api_down in
  (WECHAT_TOKEN env1 = WECHAT_TOKEN env2
   /\ forall k, k ∈ verification_params ->
        query Fixture.handshake !! k = query Fixture.handshake_noisy !! k)
  /\ Webhook.handleVerification env1 Fixture.handshake Webhook.init
     = Webhook.handleVerification env2 Fixture.handshake_noisy Webhook.init.
Proof.
  intros env1 env2.
  assert (Hq : forall k, k ∈ verification_params ->
            query Fixture.handshake !! k = query Fixture.handshake_noisy !! k).
  { intros k Hk. unfold verification_params in Hk.
    rewrite !elem_of_cons, elem_of_nil in Hk.
    destruct Hk as [->|[->|[->|[->|[]]]]]; vm_compute; reflexivity. }
  split; [split; [reflexivity | exact Hq]|].
  exact (verification_reads_only_params env1 env2 Fixture.handshake
           Fixture.handshake_noisy Webhook.init eq_refl Hq).
Defined.

(** ** The prompt form on every input *)

(** X17. A submit never throws and never changes the prompt. With a
    prompt that is not blank it calls the API exactly once, handing it
    the prompt as typed, untrimmed, and it leaves the form enabled again
    whatever the API did. *)
Theorem submit_settles
    (api : jsstring -> value -> outcome (option jsstring)) (st : Form.AppState) :
  let out := Form.submit api st in
  let st' := Form.app (snd out) in
  fst out = Ret tt
  /\ Form.prompt st' = Form.prompt st
  /\ (~ blank (Form.prompt st) ->
      Form.loading st' = false
      /\ Form.inputDisabled (Form.render st') = false
      /\ count_events is_generate (Form.calls (snd out)) = 1%nat
      /\ EvGenerate Form.model_name (VString (Form.prompt st))
           ∈ Form.calls (snd out)).
Proof.
  destruct st as [p r l e].
  cbv zeta. unfold Form.submit, Form.handleSubmit. fred.
  destruct (Form.falsy (trim p)) eqn:E.
  - fred. split; [reflexivity|]. split; [reflexivity|].
    intros Hn. destruct Hn. by apply trim_blank.
  - destruct (api Form.model_name (VString p)) as [[text|]|[message|]] eqn:Hapi;
      fred;
      (split; [reflexivity|]); (split; [reflexivity|]); intros _;
      (split; [reflexivity|]); (split; [reflexivity|]);
      (split; [reflexivity|]); cbn [app]; rewrite !elem_of_cons; auto.
Qed.

Lemma submit_settles_witness :
  let out := Form.submit Fixture.api_down Fixture.asking in
  let st' := Form.app (snd out) in
  ~ blank (Form.prompt Fixture.asking)
  /\ Form.loading st' = false
  /\ Form.inputDisabled (Form.render st') = false
  /\ count_events is_generate (Form.calls (snd out)) = 1%nat
  /\ EvGenerate Form.model_name (VString (Form.prompt Fixture.asking))
       ∈ Form.calls (snd out).
Proof.
  intros out st'.
  assert (Hn : ~ blank (Form.prompt Fixture.asking)).
  { intros Hb. inversion Hb as [|c l Hc _]. vm_compute in Hc. discriminate. }
  split; [exact Hn|].
  exact (proj2 (proj2 (submit_settles Fixture.api_down Fixture.asking)) Hn).
Defined.

(** X18. What a submit leaves behind depends on the prompt and on the
    API only: the earlier answer and the earlier error are gone, so the
    screen never shows a stale one, and it never shows the answer and the
    error together. *)
Theorem submit_forgets_earlier_outcome
    (api : jsstring -> value -> outcome (option jsstring))
    (st1 st2 : Form.AppState) :
  Form.prompt st1 = Form.prompt st2 ->
  ~ blank (Form.prompt st1) ->
  let st1' := Form.app (snd (Form.submit api st1)) in
  let st2' := Form.app (snd (Form.submit api st2)) in
  st1' = st2'
  /\ Form.render st1' = Form.render st2'
  /\ ~ (is_Some (Form.errorBox (Form.render st1'))
        /\ is_Some (Form.responseBox (Form.render st1'))).
Proof.
  destruct st1 as [p r1 l1 e1], st2 as [p2 r2 l2 e2].
  cbn [Form.prompt]. intros <- Hn.
  cbv zeta. unfold Form.submit, Form.handleSubmit. fred.
  destruct (Form.falsy (trim p)) eqn:E.
  { destruct Hn. by apply trim_blank. }
  destruct (api Form.model_name (VString p)) as [[text|]|[message|]] eqn:Hapi;
    fred;
    (split; [reflexivity|]); (split; [reflexivity|]);
    try destruct text; try destruct message;
    cbn; intros [[? H1] [? H2]]; discriminate.
Qed.

Lemma submit_forgets_earlier_outcome_witness :
  let st1' := Form.app (snd (Form.submit Fixture.api_answers Fixture.asking)) in
  let st2' := Form.app (snd (Form.submit Fixture.api_answers
                               Fixture.asking_after_error)) in
  (Form.prompt Fixture.asking = Form.prompt Fixture.asking_after_error
   /\ ~ blank (Form.prompt Fixture.asking))
  /\ st1' = st2'
  /\ Form.render st1' = Form.render st2'
  /\ ~ (is_Some (Form.errorBox (Form.render st1'))
        /\ is_Some (Form.responseBox (Form.render st1'))).
Proof.
  intros st1' st2'.
  assert (Hn : ~ blank (Form.prompt Fixture.asking)).
  { intros Hb. inversion Hb as [|c l Hc _]. vm_compute in Hc. discriminate. }
  split; [split; [reflexivity | exact Hn]|].
  exact (submit_forgets_earlier_outcome Fixture.api_answers Fixture.asking
           Fixture.asking_after_error eq_refl Hn).
Defined.

(** ** What reaches the API *)

Lemma is_text_inv (v : value) :
  Webhook.is_text v = true -> v = VString (js "text").
Proof.
  destruct v as [| | s | l | props]; simpl; try discriminate.
  unfold str_eqb. intros H. apply bool_decide_eq_true_1 in H. by rewrite H.
Qed.

(** X19. The API is called only for a message that was read and parsed
    and whose type is text, with the fixed model name and with that
    message's Content, as it arrived, as the prompt. *)
Theorem api_sees_only_text_content
    (env : Env) (req : Req) (model : jsstring) (contents : value) :
  EvGenerate model contents
    ∈ trace (snd (Webhook.handleMessage env req Webhook.init)) ->
  model = js "gemini-2.5-flash"
  /\ exists message,
       delivers env req message
       /\ read message "MsgType" = Ret (VString (js "text"))
       /\ read message "Content" = Ret contents.
Proof.
  revert model contents. hm_paths E; intros model contents Hin;
    unfold replied, logged, Webhook.init in Hin;
    cbv beta iota zeta delta
      [mbind M_bind mret M_ret emit res_status res_send res trace snd app] in Hin;
    repeat (rewrite ?elem_of_cons, ?elem_of_nil in Hin);
    repeat match goal with
           | H : _ \/ _ |- _ => destruct H
           | H : False |- _ => destruct H
           | H : EvGenerate _ _ = _ |- _ => first [discriminate H | injection H as -> ->]
           end;
    (split; [reflexivity|]);
    match goal with
    | Hf : failure (bodyStream req) = None,
      Hp : parseStringPromise env (raw_body req) = Ret ?a,
      Hr : root ?a = Ret ?m,
      Ht : read ?m "MsgType" = Ret ?v,
      Hn : negb (Webhook.is_text ?v) = false,
      Hc : read ?m "Content" = Ret _ |- _ =>
        exists m; split; [split; [exact Hf | exists a; split; [exact Hp | exact Hr]]|];
        split; [|exact Hc];
        rewrite Ht; f_equal; apply is_text_inv;
        by destruct (Webhook.is_text v)
    end.
Qed.

Lemma api_sees_only_text_content_witness :
  let env := Fixture.env Fixture.api_answers in
  let req := Fixture.post Fixture.text_xml in
  EvGenerate (js "gemini-2.5-flash") (VString (js "hello"))
    ∈ trace (snd (Webhook.handleMessage env req Webhook.init))
  /\ js "gemini-2.5-flash" = js "gemini-2.5-flash"
  /\ exists message,
       delivers env req message
       /\ read message "MsgType" = Ret (VString (js "text"))
       /\ read message "Content" = Ret (VString (js "hello")).
Proof.
  intros env req.
  assert (Hin : EvGenerate (js "gemini-2.5-flash") (VString (js "hello"))
                  ∈ trace (snd (Webhook.handleMessage env req Webhook.init))).
  { assert (Ht : trace (snd (Webhook.handleMessage env req Webhook.init))
               = [EvParse (raw_body req);
                  EvConsoleLog (VString (js "user_openid")) (VString (js "hello"));
                  EvGenerate (js "gemini-2.5-flash") (VString (js "hello"));
                  EvBuild {| ToUserName := VString (js "user_openid");
                             FromUserName := VString (js "gh_account");
                             CreateTime := 1700000000;
                             MsgType := js "text";
                             Content := js "Hi there!" |}])
      by (vm_compute; reflexivity).
    rewrite Ht. rewrite !elem_of_cons. auto. }
  split; [exact Hin|].
  exact (api_sees_only_text_content env req _ _ Hin).
Defined.
